(** * go-home: device validation, update merge and alarm trigger

    A shallow embedding of the Go packages [models], [validation],
    [repository] and [service] of the go-home device backend, and the
    properties of them that the specification states.

    Go values are represented as follows.
    - [string]: Rocq's [string], a sequence of 8-bit bytes, which is what a
      Go string is; [len] is the number of bytes.
    - [int], [int64]: [Z] (no arithmetic that could overflow is involved).
    - a pointer field that may be [nil] ([*string], [*bool]): [option].
    - [map[string]string]: [gmap string string].
    - a result pair [(v, err)]: a pair whose second component is an
      [option error], [None] standing for [nil].
    - a method with a pointer receiver whose object may change: a function
      from the receiver's state to a result and the new state. *)

From Stdlib Require Import ZArith Ascii String.
From stdpp Require Import base strings gmap pretty list.

Local Open Scope string_scope.
Local Open Scope Z_scope.

(** ** The Go builtins and standard-library functions the code calls *)

Module golang.

(** The builtin [len] on a string: its number of bytes. *)
Definition len (s : string) : Z := Z.of_nat (String.length s).

(** The value of a byte, in [0, 255]. *)
Definition byte (c : ascii) : Z := Z.of_N (N_of_ascii c).

(** The byte with a given value (taken modulo 256). *)
Definition to_byte (v : Z) : ascii := ascii_of_N (Z.to_N (v mod 256)).

(** [%d] of [fmt.Sprintf]. *)
Definition itoa (n : Z) : string := pretty n.

(** [strings.Join]. *)
Definition strings_Join (elems : list string) (sep : string) : string :=
  String.concat sep elems.

(** The interface type [error]. [nil] is [None] in [option error].
    [ErrNoRows] is [database/sql.ErrNoRows]; [errorString] is what
    [errors.New] and [fmt.Errorf] build; [ErrScan] is the failure of
    [Row.Scan] to convert the column at [index] (a NULL read into a
    [string] or a [bool]). *)
Inductive error : Type :=
| ErrNoRows
| errorString (msg : string)
| ErrScan (index : nat) (column : string).

#[global] Instance error_eq_dec : EqDecision error.
Proof. solve_decision. Defined.

(** [time.Time], as an instant counted in seconds. *)
Definition Time : Type := Z.

(** *** [unicode/utf8]

    The specification counts characters; the code never does. These two
    functions are the standard library's, used to state what a character
    count is. A rune is a code point. *)

(** [first c]: for a leading byte [c] at or above [0x80], the length of
    the sequence it starts and the range accepted for the second byte;
    [None] for a byte that cannot start a sequence. *)
Definition first (c : Z) : option (Z * Z * Z) :=
  if (0xC2 <=? c) && (c <=? 0xDF) then Some (2, 0x80, 0xBF)
  else if c =? 0xE0 then Some (3, 0xA0, 0xBF)
  else if c =? 0xED then Some (3, 0x80, 0x9F)
  else if (0xE1 <=? c) && (c <=? 0xEF) then Some (3, 0x80, 0xBF)
  else if c =? 0xF0 then Some (4, 0x90, 0xBF)
  else if (0xF1 <=? c) && (c <=? 0xF3) then Some (4, 0x80, 0xBF)
  else if c =? 0xF4 then Some (4, 0x80, 0x8F)
  else None.

(** A continuation byte: [locb <= c <= hicb]. *)
Definition is_cont (c : Z) : bool := (0x80 <=? c) && (c <=? 0xBF).

(** [utf8.RuneCountInString]. Every iteration counts one rune and moves
    on by the size of a well-formed sequence, or by one byte when the
    sequence is ill-formed or cut short. *)
Fixpoint RuneCountInString (s : string) : Z :=
  match s with
  | EmptyString => 0
  | String c s1 =>
    1 +
    (if byte c <? 0x80 then RuneCountInString s1
     else
       match first (byte c) with
       | None => RuneCountInString s1
       | Some (size, lo, hi) =>
         match s1 with
         | EmptyString => RuneCountInString s1
         | String c1 s2 =>
           if (byte c1 <? lo) || (hi <? byte c1) then RuneCountInString s1
           else if size =? 2 then RuneCountInString s2
           else
             match s2 with
             | EmptyString => RuneCountInString s1
             | String c2 s3 =>
               if negb (is_cont (byte c2)) then RuneCountInString s1
               else if size =? 3 then RuneCountInString s3
               else
                 match s3 with
                 | EmptyString => RuneCountInString s1
                 | String c3 s4 =>
                   if negb (is_cont (byte c3)) then RuneCountInString s1
                   else RuneCountInString s4
                 end
             end
         end
       end)
  end.

(** The conversion [string(r)] of one rune, that is [utf8.AppendRune]:
    the UTF-8 encoding of [r], and of U+FFFD for a surrogate or a value
    out of range. *)
Definition string_of_rune (r : Z) : string :=
  let b (v : Z) := String (to_byte v) EmptyString in
  if (0 <=? r) && (r <=? 0x7F) then b r
  else if (0 <=? r) && (r <=? 0x7FF) then
    b (Z.lor 0xC0 (Z.shiftr r 6)) +:+ b (Z.lor 0x80 (Z.land r 0x3F))
  else if (r <? 0) || (0x10FFFF <? r) || ((0xD800 <=? r) && (r <=? 0xDFFF)) then
    b 0xEF +:+ b 0xBF +:+ b 0xBD
  else if r <=? 0xFFFF then
    b (Z.lor 0xE0 (Z.shiftr r 12)) +:+
    b (Z.lor 0x80 (Z.land (Z.shiftr r 6) 0x3F)) +:+
    b (Z.lor 0x80 (Z.land r 0x3F))
  else
    b (Z.lor 0xF0 (Z.shiftr r 18)) +:+
    b (Z.lor 0x80 (Z.land (Z.shiftr r 12) 0x3F)) +:+
    b (Z.lor 0x80 (Z.land (Z.shiftr r 6) 0x3F)) +:+
    b (Z.lor 0x80 (Z.land r 0x3F)).

(** The conversion [string(runes)] of a slice of runes. *)
Definition string_of_runes (runes : list Z) : string :=
  foldr (fun r acc => string_of_rune r +:+ acc) EmptyString runes.

End golang.

(** ** Package [models] *)

Module models.

(** [type DeviceType string] *)
Definition DeviceType : Type := string.

Definition DeviceTypeCamera : DeviceType := "CAMERA".
Definition DeviceTypeThermostat : DeviceType := "THERMOSTAT".
Definition DeviceTypeSmokeDetector : DeviceType := "SMOKE_DETECTOR".
Definition DeviceTypeMotionSensor : DeviceType := "MOTION_SENSOR".
Definition DeviceTypeLock : DeviceType := "LOCK".
Definition DeviceTypeUnknown : DeviceType := "UNKNOWN".

(** [func (dt DeviceType) IsValid() bool]: the [switch] compares [dt]
    with each constant of the single [case]. *)
Definition IsValid (dt : DeviceType) : bool :=
  if String.eqb dt DeviceTypeCamera || String.eqb dt DeviceTypeThermostat ||
     String.eqb dt DeviceTypeSmokeDetector || String.eqb dt DeviceTypeMotionSensor ||
     String.eqb dt DeviceTypeLock || String.eqb dt DeviceTypeUnknown
  then true
  else false.

Module DeviceTypeInfo.
Record t : Type := mk {
  ID : string;
  DisplayName : string;
  Description : string
}.
End DeviceTypeInfo.

(** [func IsValidDeviceType(dt DeviceType) bool] *)
Definition IsValidDeviceType (dt : DeviceType) : bool := IsValid dt.

(** [func GetAllDeviceTypes() []DeviceTypeInfo] *)
Definition GetAllDeviceTypes : list DeviceTypeInfo.t :=
  [ DeviceTypeInfo.mk DeviceTypeCamera "Camera" "Smart security camera";
    DeviceTypeInfo.mk DeviceTypeThermostat "Thermostat"
      "Smart thermostat for controlling temperature";
    DeviceTypeInfo.mk DeviceTypeSmokeDetector "Smoke Detector"
      "Detects smoke and fire hazards";
    DeviceTypeInfo.mk DeviceTypeMotionSensor "Motion Sensor"
      "Detects movement in monitored areas";
    DeviceTypeInfo.mk DeviceTypeLock "Lock"
      "Smart lock with remote access capabilities";
    DeviceTypeInfo.mk DeviceTypeUnknown "Unknown" "Unknown device type" ].

(** Modelled from the spec: the struct [Device], whose declaration is not
    among the sources. The fields are those the repository scans and the
    tests build, with the types their uses fix: [{id, owned_by,
    device_type, name, description, is_online, last_alarm_time,
    last_alarm_reason, created_at, updated_at}]. *)
Module Device.
Record t : Type := mk {
  ID : Z;
  OwnedBy : string;
  DeviceType : models.DeviceType;
  Name : string;
  Description : string;
  IsOnline : bool;
  LastAlarmTime : golang.Time;
  LastAlarmReason : string;
  CreatedAt : golang.Time;
  UpdatedAt : golang.Time
}.
End Device.

(** Modelled from the spec: the struct [DeviceCreate], whose declaration
    is not among the sources: [{name, description, device_type,
    owned_by}], all plain values. *)
Module DeviceCreate.
Record t : Type := mk {
  Name : string;
  Description : string;
  DeviceType : models.DeviceType;
  OwnedBy : string
}.
End DeviceCreate.

(** Modelled from the spec: the struct [DeviceUpdate], whose declaration
    is not among the sources: [{name?, description?, is_online?,
    owned_by?, device_type?, last_alarm_reason?}], every field a pointer
    that is [nil] when the field is absent. *)
Module DeviceUpdate.
Record t : Type := mk {
  Name : option string;
  Description : option string;
  IsOnline : option bool;
  OwnedBy : option string;
  DeviceType : option models.DeviceType;
  LastAlarmReason : option string
}.
End DeviceUpdate.

(** Modelled from the spec: the struct [AlarmRequest], whose declaration
    is not among the sources: [{reason, level}], two strings. *)
Module AlarmRequest.
Record t : Type := mk {
  Reason : string;
  Level : string
}.
End AlarmRequest.

End models.

(** ** Package [validation] *)

Module validation.
Import golang.
Import models.

Definition MaxDeviceNameLength : Z := 100.
Definition MinDeviceNameLength : Z := 1.
Definition MaxOwnerLength : Z := 50.
Definition MinOwnerLength : Z := 1.
Definition MaxDescriptionLength : Z := 500.
Definition MaxLastAlarmReasonLength : Z := 200.
Definition MinAlarmReasonLength : Z := 1.

(** A byte of the class [[a-zA-Z0-9]]. *)
Definition is_alphanumeric (c : ascii) : bool :=
  ((byte "a" <=? byte c) && (byte c <=? byte "z")) ||
  ((byte "A" <=? byte c) && (byte c <=? byte "Z")) ||
  ((byte "0" <=? byte c) && (byte c <=? byte "9")).

(** [alphanumericPattern.MatchString], for the pattern [^[a-zA-Z0-9]+$]:
    the whole text is one or more bytes of the class. (Without the [m]
    flag Go's [$] matches at the end of the text only, and a byte at or
    above [0x80] never belongs to an ASCII class.) *)
Definition alphanumericPattern_MatchString (s : string) : bool :=
  match list_ascii_of_string s with
  | [] => false
  | cs => forallb is_alphanumeric cs
  end.

(** [type ValidationErrors map[string]string] *)
Abbreviation ValidationErrors := (gmap string string).

(** [func IsValidDeviceName(name string) bool] *)
Definition IsValidDeviceName (name : string) : bool :=
  if (len name <? MinDeviceNameLength) || (len name >? MaxDeviceNameLength)
  then false
  else alphanumericPattern_MatchString name.

(** [func IsValidOwner(owner string) bool] *)
Definition IsValidOwner (owner : string) : bool :=
  (len owner >=? MinOwnerLength) && (len owner <=? MaxOwnerLength).

(** The message under the key [name]. *)
Definition name_message : string :=
  "must be between " +:+ itoa MinDeviceNameLength +:+ "-" +:+
  itoa MaxDeviceNameLength +:+
  " characters and contain only alphanumeric characters (A-Z, a-z, 0-9)".

(** The message under the key [device_type]: the loop appends the [ID] of
    every entry of [GetAllDeviceTypes] to [typeNames], which
    [strings.Join] then joins. *)
Definition device_type_message : string :=
  let allTypes := GetAllDeviceTypes in
  let typeNames :=
    foldl (fun typeNames t => (typeNames ++ [DeviceTypeInfo.ID t])%list) []
      allTypes in
  "must be one of: " +:+ strings_Join typeNames ", ".

(** The message under the key [owned_by]. *)
Definition owned_by_message : string :=
  "must be between " +:+ itoa MinOwnerLength +:+ "-" +:+
  itoa MaxOwnerLength +:+ " characters".

(** The message under the keys [description] and [last_alarm_reason]. *)
Definition not_exceed_message (limit : Z) : string :=
  "must not exceed " +:+ itoa limit +:+ " characters".

(** [func ValidateDeviceCreate(device *models.DeviceCreate)
    (bool, ValidationErrors)] *)
Definition ValidateDeviceCreate (device : DeviceCreate.t)
  : bool * ValidationErrors :=
  let errors : ValidationErrors := ∅ in
  let errors :=
    if negb (IsValidDeviceName (DeviceCreate.Name device))
    then <["name" := name_message]> errors else errors in
  let errors :=
    if negb (IsValidDeviceType (DeviceCreate.DeviceType device))
    then <["device_type" := device_type_message]> errors else errors in
  let errors :=
    if negb (IsValidOwner (DeviceCreate.OwnedBy device))
    then <["owned_by" := owned_by_message]> errors else errors in
  let errors :=
    if len (DeviceCreate.Description device) >? MaxDescriptionLength
    then <["description" := not_exceed_message MaxDescriptionLength]> errors
    else errors in
  (Z.of_nat (size errors) =? 0, errors).

(** [func ValidateAlarmRequest(alarm *models.AlarmRequest)
    (bool, ValidationErrors)] *)
Definition ValidateAlarmRequest (alarm : AlarmRequest.t)
  : bool * ValidationErrors :=
  let errors : ValidationErrors := ∅ in
  let errors :=
    if len (AlarmRequest.Reason alarm) <? MinAlarmReasonLength
    then <["reason" := "reason cannot be empty"]> errors
    else if len (AlarmRequest.Reason alarm) >? MaxLastAlarmReasonLength
    then <["reason" := "reason must not exceed " +:+
                       itoa MaxLastAlarmReasonLength +:+ " characters"]> errors
    else errors in
  let errors :=
    if negb (String.eqb (AlarmRequest.Level alarm) "INFO") &&
       negb (String.eqb (AlarmRequest.Level alarm) "WARNING") &&
       negb (String.eqb (AlarmRequest.Level alarm) "CRITICAL")
    then <["level" := "level must be one of: INFO, WARNING, CRITICAL"]> errors
    else errors in
  (Z.of_nat (size errors) =? 0, errors).

(** A guard [p != nil && failing( *p )] of [ValidateDeviceUpdate]: [false]
    for a nil pointer, without dereferencing it. *)
Definition present_and {A : Type} (p : option A) (failing : A -> bool) : bool :=
  match p with
  | Some v => failing v
  | None => false
  end.

(** [func ValidateDeviceUpdate(device *models.DeviceUpdate)
    (bool, ValidationErrors)] *)
Definition ValidateDeviceUpdate (device : DeviceUpdate.t)
  : bool * ValidationErrors :=
  let errors : ValidationErrors := ∅ in
  let errors :=
    if present_and (DeviceUpdate.Name device)
         (fun name => negb (IsValidDeviceName name))
    then <["name" := name_message]> errors else errors in
  let errors :=
    if present_and (DeviceUpdate.OwnedBy device)
         (fun owner => negb (IsValidOwner owner))
    then <["owned_by" := owned_by_message]> errors else errors in
  let errors :=
    if present_and (DeviceUpdate.Description device)
         (fun description => len description >? MaxDescriptionLength)
    then <["description" := not_exceed_message MaxDescriptionLength]> errors
    else errors in
  let errors :=
    if present_and (DeviceUpdate.LastAlarmReason device)
         (fun reason => len reason >? MaxLastAlarmReasonLength)
    then <["last_alarm_reason" :=
             not_exceed_message MaxLastAlarmReasonLength]> errors
    else errors in
  let errors :=
    if present_and (DeviceUpdate.DeviceType device)
         (fun dt => negb (IsValidDeviceType dt))
    then <["device_type" := device_type_message]> errors else errors in
  (Z.of_nat (size errors) =? 0, errors).

End validation.

(** ** The helper of the validation tests *)

Module validation_test.

(** [func generateString(length int, char rune) string]: [length] copies
    of the rune, converted to a string. *)
Definition generateString (length : Z) (char : Z) : string :=
  golang.string_of_runes (replicate (Z.to_nat length) char).

End validation_test.

(** ** The database behind the repository

    [*sql.DB] with the one table the schema of [pkg/database] creates:

    [CREATE TABLE devices (id INTEGER PRIMARY KEY AUTOINCREMENT, name TEXT
    NOT NULL, description TEXT, device_type TEXT NOT NULL, owned_by TEXT NOT
    NULL, is_online BOOLEAN DEFAULT FALSE, last_alarm_reason TEXT,
    last_alarm_time TIMESTAMP, created_at TIMESTAMP DEFAULT
    CURRENT_TIMESTAMP, updated_at TIMESTAMP DEFAULT CURRENT_TIMESTAMP)]

    A column without [NOT NULL] may hold NULL, which is [None]. *)

Module sql.
Import golang.

Record Row : Type := mkRow {
  name : string;
  description : option string;
  device_type : string;
  owned_by : string;
  is_online : option bool;
  last_alarm_reason : option string;
  last_alarm_time : option Time;
  created_at : option Time;
  updated_at : option Time
}.

(** The state of the database: the rows of [devices] by [id], the instant
    [CURRENT_TIMESTAMP] evaluates to, and whether the handle was closed
    ([db.Close()]), after which every statement fails. *)
Record DB : Type := mkDB {
  devices : gmap Z Row;
  CURRENT_TIMESTAMP : Time;
  closed : bool
}.

(** [sql.ErrNoRows] and the error of a closed handle. *)
Definition ErrNoRows : error := golang.ErrNoRows.
Definition errDBClosed : error := errorString "sql: database is closed".

(** [db.QueryRow("SELECT ... FROM devices WHERE id = ?", id)]: the row
    with that [id], if any; the error is deferred to [Scan]. *)
Definition QueryRow (db : DB) (id : Z) : (Z * Row) + error :=
  if closed db then inr errDBClosed
  else match devices db !! id with
       | Some r => inl (id, r)
       | None => inr ErrNoRows
       end.

(** The conversion of one column by [Scan] into a Go [string], [bool] or
    the like: NULL does not convert. *)
Definition column {A : Type} (index : nat) (label : string) (v : option A)
  : A + error :=
  match v with
  | Some a => inl a
  | None => inr (ErrScan index label)
  end.

(** [db.Exec] of a statement [UPDATE devices SET ... WHERE id = ?]: the
    row with that [id] is rewritten by [set]; without such a row nothing
    changes, and that is no error. *)
Definition Exec_UPDATE (db : DB) (set : Row -> Row) (id : Z)
  : option error * DB :=
  if closed db then (Some errDBClosed, db)
  else (None, mkDB (alter set id (devices db)) (CURRENT_TIMESTAMP db) (closed db)).

(** [db.Exec] of [DELETE FROM devices WHERE id = ?]: likewise no error
    when no row has that [id]. *)
Definition Exec_DELETE (db : DB) (id : Z) : option error * DB :=
  if closed db then (Some errDBClosed, db)
  else (None, mkDB (delete id (devices db)) (CURRENT_TIMESTAMP db) (closed db)).

End sql.

(** ** Package [repository] *)

Module repository.
Import golang.
Import models.

(** [type DeviceRepository interface], for an implementation whose state
    is an [R]. The methods [Create] and [GetAll] take no part in what
    follows and are left out. *)
Class DeviceRepository (R : Type) : Type := {
  GetByID : Z -> R -> (option Device.t * option error) * R;
  Update : Z -> DeviceUpdate.t -> R -> option error * R;
  Delete : Z -> R -> option error * R;
  TriggerAlarm : Z -> string -> R -> option error * R
}.

(** [type DeviceRepositoryImpl struct { db *sql.DB }]: its state is that
    of the database. *)
Module DeviceRepositoryImpl.

(** The call [Scan(&device.ID, &device.Name, ...)] of [GetByID] on the row
    found, followed by the three [time.Parse] whose errors are dropped.
    The columns are converted in the order of the [SELECT]; a timestamp is
    kept as the instant it denotes. *)
Definition Scan (row : (Z * sql.Row) + error) : Device.t + error :=
  match row with
  | inr err => inr err
  | inl (id, r) =>
    match sql.column 2 "description" (sql.description r) with
    | inr err => inr err
    | inl description =>
    match sql.column 5 "is_online" (sql.is_online r) with
    | inr err => inr err
    | inl isOnline =>
    match sql.column 6 "last_alarm_reason" (sql.last_alarm_reason r) with
    | inr err => inr err
    | inl lastAlarmReason =>
    match sql.column 7 "last_alarm_time" (sql.last_alarm_time r) with
    | inr err => inr err
    | inl lastAlarmTime =>
    match sql.column 8 "created_at" (sql.created_at r) with
    | inr err => inr err
    | inl createdAt =>
    match sql.column 9 "updated_at" (sql.updated_at r) with
    | inr err => inr err
    | inl updatedAt =>
      inl (Device.mk id (sql.owned_by r) (sql.device_type r) (sql.name r)
             description isOnline lastAlarmTime lastAlarmReason
             createdAt updatedAt)
    end end end end end end
  end.

(** [func (r *DeviceRepositoryImpl) GetByID(id int64)
    ( *models.Device, error)] *)
Definition GetByID (id : Z) (db : sql.DB)
  : (option Device.t * option error) * sql.DB :=
  match Scan (sql.QueryRow db id) with
  | inr err =>
    if decide (err = sql.ErrNoRows)
    then ((None, None), db)
    else ((None, Some err), db)
  | inl device => ((Some device, None), db)
  end.

(** The [SET] clause of [Update]:
    [name = ?, description = ?, device_type = ?, is_online = ?,
    owned_by = ?, last_alarm_reason = ?, updated_at = CURRENT_TIMESTAMP]. *)
Definition set_Update (now : Time) (name description : string)
    (deviceType : DeviceType) (isOnline : bool)
    (ownedBy lastAlarmReason : string) (r : sql.Row) : sql.Row :=
  sql.mkRow name (Some description) deviceType ownedBy (Some isOnline)
    (Some lastAlarmReason) (sql.last_alarm_time r) (sql.created_at r)
    (Some now).

(** [func (r *DeviceRepositoryImpl) Update(id int64,
    device *models.DeviceUpdate) error] *)
Definition Update (id : Z) (device : DeviceUpdate.t) (db : sql.DB)
  : option error * sql.DB :=
  let '((currentDevice, err), db) := GetByID id db in
  match err with
  | Some err => (Some err, db)
  | None =>
    match currentDevice with
    | None => (Some sql.ErrNoRows, db)
    | Some currentDevice =>
      let name := Device.Name currentDevice in
      let description := Device.Description currentDevice in
      let isOnline := Device.IsOnline currentDevice in
      let ownedBy := Device.OwnedBy currentDevice in
      let deviceType := Device.DeviceType currentDevice in
      let lastAlarmReason := Device.LastAlarmReason currentDevice in
      let name :=
        match DeviceUpdate.Name device with Some v => v | None => name end in
      let description :=
        match DeviceUpdate.Description device with
        | Some v => v | None => description end in
      let isOnline :=
        match DeviceUpdate.IsOnline device with
        | Some v => v | None => isOnline end in
      let ownedBy :=
        match DeviceUpdate.OwnedBy device with
        | Some v => v | None => ownedBy end in
      let deviceType :=
        match DeviceUpdate.DeviceType device with
        | Some v => v | None => deviceType end in
      let lastAlarmReason :=
        match DeviceUpdate.LastAlarmReason device with
        | Some v => v | None => lastAlarmReason end in
      sql.Exec_UPDATE db
        (set_Update (sql.CURRENT_TIMESTAMP db) name description deviceType
           isOnline ownedBy lastAlarmReason)
        id
    end
  end.

(** [func (r *DeviceRepositoryImpl) Delete(id int64) error] *)
Definition Delete (id : Z) (db : sql.DB) : option error * sql.DB :=
  sql.Exec_DELETE db id.

(** The [SET] clause of [TriggerAlarm]: [last_alarm_reason = ?,
    last_alarm_time = CURRENT_TIMESTAMP, updated_at = CURRENT_TIMESTAMP]. *)
Definition set_TriggerAlarm (now : Time) (reason : string) (r : sql.Row)
  : sql.Row :=
  sql.mkRow (sql.name r) (sql.description r) (sql.device_type r)
    (sql.owned_by r) (sql.is_online r) (Some reason) (Some now)
    (sql.created_at r) (Some now).

(** [func (r *DeviceRepositoryImpl) TriggerAlarm(id int64, reason string)
    error] *)
Definition TriggerAlarm (id : Z) (reason : string) (db : sql.DB)
  : option error * sql.DB :=
  sql.Exec_UPDATE db (set_TriggerAlarm (sql.CURRENT_TIMESTAMP db) reason) id.

End DeviceRepositoryImpl.

(** [DeviceRepositoryImpl] implements [DeviceRepository]. *)
#[global] Instance DeviceRepositoryImpl_repo : DeviceRepository sql.DB := {
  GetByID := DeviceRepositoryImpl.GetByID;
  Update := DeviceRepositoryImpl.Update;
  Delete := DeviceRepositoryImpl.Delete;
  TriggerAlarm := DeviceRepositoryImpl.TriggerAlarm
}.

End repository.

(** ** Package [service] *)

Module service.
Import golang.
Import models.

Section DeviceService.

(** [type DeviceService struct { repo repository.DeviceRepository }]: the
    service has no state but that of its repository. *)
Context {R : Type} {repo : repository.DeviceRepository R}.

(** [func (s *DeviceService) GetDeviceByID(id int64)
    ( *models.Device, error)] *)
Definition GetDeviceByID (id : Z) (s : R)
  : (option Device.t * option error) * R :=
  repository.GetByID id s.

(** [func (s *DeviceService) UpdateDevice(id int64,
    device *models.DeviceUpdate) error] *)
Definition UpdateDevice (id : Z) (device : DeviceUpdate.t) (s : R)
  : option error * R :=
  repository.Update id device s.

(** [func (s *DeviceService) DeleteDevice(id int64) error] *)
Definition DeleteDevice (id : Z) (s : R) : option error * R :=
  repository.Delete id s.

(** [func (s *DeviceService) TriggerAlarm(id int64,
    alarm *models.AlarmRequest) error] *)
Definition TriggerAlarm (id : Z) (alarm : AlarmRequest.t) (s : R)
  : option error * R :=
  let '((device, err), s) := repository.GetByID id s in
  match err with
  | Some err => (Some err, s)
  | None =>
    match device with
    | None =>
      (Some (errorString ("device not found with ID: " +:+ itoa id)), s)
    | Some _ =>
      let formattedReason :=
        "[" +:+ AlarmRequest.Level alarm +:+ "] " +:+
        AlarmRequest.Reason alarm in
      repository.TriggerAlarm id formattedReason s
    end
  end.

End DeviceService.

End service.

(** ** The mock repository of the service tests *)

Module service_test.
Import golang.
Import models.

(** [type MockDeviceRepo struct] *)
Record MockDeviceRepo : Type := mkMock {
  getByIDCalled : bool;
  getByIDInput : Z;
  getByIDOutput : option Device.t;
  getByIDError : option error;
  triggerAlarmCalled : bool;
  triggerAlarmID : Z;
  triggerAlarmReason : string;
  triggerAlarmError : option error
}.

(** [func (m *MockDeviceRepo) GetByID(id int64) ( *models.Device, error)] *)
Definition GetByID (id : Z) (m : MockDeviceRepo)
  : (option Device.t * option error) * MockDeviceRepo :=
  let m := mkMock true id (getByIDOutput m) (getByIDError m)
             (triggerAlarmCalled m) (triggerAlarmID m)
             (triggerAlarmReason m) (triggerAlarmError m) in
  ((getByIDOutput m, getByIDError m), m).

(** [func (m *MockDeviceRepo) TriggerAlarm(id int64, reason string) error] *)
Definition TriggerAlarm (id : Z) (reason : string) (m : MockDeviceRepo)
  : option error * MockDeviceRepo :=
  let m := mkMock (getByIDCalled m) (getByIDInput m) (getByIDOutput m)
             (getByIDError m) true id reason (triggerAlarmError m) in
  (triggerAlarmError m, m).

(** The stubs [Update] and [Delete]: [return nil]. *)
Definition Update (id : Z) (device : DeviceUpdate.t) (m : MockDeviceRepo)
  : option error * MockDeviceRepo := (None, m).
Definition Delete (id : Z) (m : MockDeviceRepo)
  : option error * MockDeviceRepo := (None, m).

#[global] Instance MockDeviceRepo_repo
  : repository.DeviceRepository MockDeviceRepo := {
  repository.GetByID := GetByID;
  repository.Update := Update;
  repository.Delete := Delete;
  repository.TriggerAlarm := TriggerAlarm
}.

(** The mock a test case builds: [&MockDeviceRepo{getByIDOutput: ...,
    getByIDError: ..., triggerAlarmError: ...}], every other field zero. *)
Definition newMock (output : option Device.t) (getErr trigErr : option error)
  : MockDeviceRepo :=
  mkMock false 0 output getErr false 0 "" trigErr.

End service_test.

(** ** A repository that records the calls made to it

    Not part of the program: an instrument of the verification. It wraps
    any repository and appends every call it receives to a log, so that
    which repository methods an operation invokes, and with which
    arguments, can be stated for every implementation at once. *)

Module recorder.
Import golang.
Import models.

Inductive Call : Type :=
| CallGetByID (id : Z)
| CallUpdate (id : Z) (device : DeviceUpdate.t)
| CallDelete (id : Z)
| CallTriggerAlarm (id : Z) (reason : string).

(** A call that writes to the store: every method but the lookup. *)
Definition is_write (c : Call) : bool :=
  match c with
  | CallGetByID _ => false
  | _ => true
  end.

Section Recorded.
Context {R : Type} {repo : repository.DeviceRepository R}.

(** Run a method of the wrapped repository and log the call. *)
Definition logged {A : Type} (c : Call) (m : R -> A * R) (s : R * list Call)
  : A * (R * list Call) :=
  let '(a, r) := m (fst s) in (a, (r, (snd s ++ [c])%list)).

#[global] Instance Recorded_repo : repository.DeviceRepository (R * list Call) := {
  repository.GetByID id := logged (CallGetByID id) (repository.GetByID id);
  repository.Update id device :=
    logged (CallUpdate id device) (repository.Update id device);
  repository.Delete id := logged (CallDelete id) (repository.Delete id);
  repository.TriggerAlarm id reason :=
    logged (CallTriggerAlarm id reason) (repository.TriggerAlarm id reason)
}.

End Recorded.

End recorder.

(** * The rest of the request path

    What follows embeds the code around the functions above: the insertion
    of a device, and the HTTP handlers that parse a request, validate it,
    call the service and choose the status code. *)

(** ** More of the standard library *)

Module strconv.
Import golang.

(** The value of a decimal digit, if the byte is one. *)
Definition digit (c : ascii) : option Z :=
  if (byte "0" <=? byte c) && (byte c <=? byte "9")
  then Some (byte c - byte "0")
  else None.

(** The loop of [ParseUint] in base 10: the number the digits denote,
    continued from [acc]; any other byte is a syntax error. *)
Fixpoint digits (acc : Z) (s : string) : option Z :=
  match s with
  | EmptyString => Some acc
  | String c rest =>
    match digit c with
    | Some d => digits (acc * 10 + d) rest
    | None => None
    end
  end.

(** [strconv.ParseUint(s, 10, 64)], the error reduced to [None]: the text
    is empty, holds a byte that is no digit, or denotes more than
    [1<<64 - 1]. *)
Definition ParseUint (s : string) : option Z :=
  match s with
  | EmptyString => None
  | _ =>
    match digits 0 s with
    | Some un => if un <=? 2 ^ 64 - 1 then Some un else None
    | None => None
    end
  end.

(** [strconv.ParseInt(s, 10, 64)], the error reduced to [None]: an
    optional sign, then [ParseUint], then the check against the cutoff
    [1<<63]. *)
Definition ParseInt (s : string) : option Z :=
  match s with
  | EmptyString => None
  | String c rest =>
    let '(neg, s) :=
      if Ascii.eqb c "+" then (false, rest)
      else if Ascii.eqb c "-" then (true, rest)
      else (false, s) in
    match ParseUint s with
    | None => None
    | Some un =>
      let cutoff := 2 ^ 63 in
      if negb neg && (un >=? cutoff) then None
      else if neg && (un >? cutoff) then None
      else Some (if neg then - un else un)
    end
  end.

End strconv.

Module errors.
Import golang.

(** The byte [0x22], the double quote of [%q]. *)
Definition quote : string := String "034" EmptyString.

(** The method [Error() string] of the errors the code meets. A failed
    [Scan] wraps the failure of the conversion: of NULL into a [bool] for
    the column [is_online] (index 5), of NULL into a [string] elsewhere. *)
Definition Error (err : error) : string :=
  match err with
  | ErrNoRows => "sql: no rows in result set"
  | errorString msg => msg
  | ErrScan index column =>
    "sql: Scan error on column index " +:+ itoa (Z.of_nat index) +:+
    ", name " +:+ quote +:+ column +:+ quote +:+ ": " +:+
    (if Nat.eqb index 5
     then "sql/driver: couldn't convert <nil> (<nil>) into type bool"
     else "converting NULL to string is unsupported")
  end.

End errors.

Module http.

Definition StatusOK : Z := 200.
Definition StatusNoContent : Z := 204.
Definition StatusBadRequest : Z := 400.
Definition StatusNotFound : Z := 404.
Definition StatusInternalServerError : Z := 500.

End http.

(** ** Inserting a device

    The identifier column is [INTEGER PRIMARY KEY AUTOINCREMENT]: SQLite
    keeps, in [sqlite_sequence], the largest identifier the table ever
    held, and gives a new row the identifier one above it, so that the
    identifier of a deleted row is not handed out again. That counter is
    part of the state of the database. *)

Module store.
Import golang.
Import models.

Record Store : Type := mkStore {
  db : sql.DB;
  sqlite_sequence : Z
}.

(** A statement that does not insert leaves the counter alone. *)
Definition lift {A : Type} (m : sql.DB -> A * sql.DB) (st : Store)
  : A * Store :=
  let '(a, d) := m (db st) in (a, mkStore d (sqlite_sequence st)).

(** The largest identifier among the rows, 0 for an empty table. *)
Definition max_rowid (rows : gmap Z sql.Row) : Z :=
  map_fold (fun id _ acc => Z.max id acc) 0 rows.

(** The row of [INSERT INTO devices (name, description, device_type,
    owned_by) VALUES (?, ?, ?, ?)]: the other columns take their default,
    which is NULL where the schema names none. *)
Definition inserted_row (now : Time) (name description : string)
    (deviceType : DeviceType) (ownedBy : string) : sql.Row :=
  sql.mkRow name (Some description) deviceType ownedBy (Some false)
    None None (Some now) (Some now).

(** [db.Exec] of that [INSERT], with [result.LastInsertId()]. The
    exhaustion of the identifiers, at [1<<63 - 1], is not modelled. *)
Definition Exec_INSERT (st : Store) (row : sql.Row)
  : (Z * option error) * Store :=
  if sql.closed (db st) then ((0, Some sql.errDBClosed), st)
  else
    let id := 1 + Z.max (sqlite_sequence st) (max_rowid (sql.devices (db st))) in
    ((id, None),
     mkStore
       (sql.mkDB (<[id := row]> (sql.devices (db st)))
          (sql.CURRENT_TIMESTAMP (db st)) (sql.closed (db st)))
       id).

(** [func (r *DeviceRepositoryImpl) Create(device *models.DeviceCreate)
    (int64, error)] *)
Definition Create (device : DeviceCreate.t) (st : Store)
  : (Z * option error) * Store :=
  let '((id, err), st) :=
    Exec_INSERT st
      (inserted_row (sql.CURRENT_TIMESTAMP (db st))
         (DeviceCreate.Name device) (DeviceCreate.Description device)
         (DeviceCreate.DeviceType device) (DeviceCreate.OwnedBy device)) in
  match err with
  | Some err => ((0, Some err), st)
  | None => ((id, None), st)
  end.

(** The other methods of [DeviceRepositoryImpl], on the same state. *)
#[global] Instance Store_repo : repository.DeviceRepository Store := {
  repository.GetByID id := lift (repository.DeviceRepositoryImpl.GetByID id);
  repository.Update id device :=
    lift (repository.DeviceRepositoryImpl.Update id device);
  repository.Delete id := lift (repository.DeviceRepositoryImpl.Delete id);
  repository.TriggerAlarm id reason :=
    lift (repository.DeviceRepositoryImpl.TriggerAlarm id reason)
}.

(** [func (s *DeviceService) CreateDevice(device *models.DeviceCreate)
    (int64, error)] *)
Definition CreateDevice (device : DeviceCreate.t) (st : Store)
  : (Z * option error) * Store :=
  Create device st.

End store.

(** ** Package [handlers]

    A handler receives the path parameter [id] as a text and the outcome
    of [c.ShouldBindJSON]: the decoded body, or the error of the decoder.
    It answers with a status code and a body. The routes [GET
    /api/devices] and [GET /health], which list every device, are left
    out. *)

Module handlers.
Import golang.
Import models.

(** [type DeviceServiceInterface interface], without [GetAllDevices]. *)
Class DeviceServiceInterface (S : Type) : Type := {
  CreateDevice : DeviceCreate.t -> S -> (Z * option error) * S;
  GetDeviceByID : Z -> S -> (option Device.t * option error) * S;
  UpdateDevice : Z -> DeviceUpdate.t -> S -> option error * S;
  DeleteDevice : Z -> S -> option error * S;
  TriggerAlarm : Z -> AlarmRequest.t -> S -> option error * S
}.

(** What a handler writes: nothing ([c.Status]), [gin.H{error: ...}],
    [gin.H{errors: ...}], [gin.H{id: ...}] or a device. *)
Inductive Body : Type :=
| NoBody
| H_error (msg : string)
| H_errors (errs : gmap string string)
| H_id (id : Z)
| JSON_Device (device : Device.t).

Record Response : Type := mkResponse {
  Code : Z;
  Payload : Body
}.

Section Handler.
Context {S : Type} {deviceService : DeviceServiceInterface S}.

(** [func (h *Handler) getDeviceByID(c *gin.Context)] *)
Definition getDeviceByID (idStr : string) (s : S) : Response * S :=
  match strconv.ParseInt idStr with
  | None => (mkResponse http.StatusBadRequest (H_error "invalid device ID"), s)
  | Some id =>
    let '((device, err), s) := GetDeviceByID id s in
    match err with
    | Some err =>
      (mkResponse http.StatusInternalServerError (H_error (errors.Error err)), s)
    | None =>
      match device with
      | None =>
        (mkResponse http.StatusNotFound (H_error "device not found"), s)
      | Some device => (mkResponse http.StatusOK (JSON_Device device), s)
      end
    end
  end.


(** [func (h *Handler) updateDevice(c *gin.Context)] *)
Definition updateDevice (idStr : string) (bound : DeviceUpdate.t + error)
    (s : S) : Response * S :=
  match strconv.ParseInt idStr with
  | None => (mkResponse http.StatusBadRequest (H_error "invalid device ID"), s)
  | Some id =>
    match bound with
    | inr err =>
      (mkResponse http.StatusBadRequest (H_error (errors.Error err)), s)
    | inl deviceUpdate =>
      let '(err, s) := UpdateDevice id deviceUpdate s in
      match err with
      | Some err =>
        (mkResponse http.StatusInternalServerError
           (H_error (errors.Error err)), s)
      | None => (mkResponse http.StatusNoContent NoBody, s)
      end
    end
  end.

(** [func (h *Handler) deleteDevice(c *gin.Context)] *)
Definition deleteDevice (idStr : string) (s : S) : Response * S :=
  match strconv.ParseInt idStr with
  | None => (mkResponse http.StatusBadRequest (H_error "invalid device ID"), s)
  | Some id =>
    let '(err, s) := DeleteDevice id s in
    match err with
    | Some err =>
      (mkResponse http.StatusInternalServerError (H_error (errors.Error err)), s)
    | None => (mkResponse http.StatusNoContent NoBody, s)
    end
  end.

(** [func (h *Handler) triggerDeviceAlarm(c *gin.Context)] *)
Definition triggerDeviceAlarm (idStr : string) (bound : AlarmRequest.t + error)
    (s : S) : Response * S :=
  match strconv.ParseInt idStr with
  | None => (mkResponse http.StatusBadRequest (H_error "invalid device ID"), s)
  | Some id =>
    match bound with
    | inr err =>
      (mkResponse http.StatusBadRequest (H_error (errors.Error err)), s)
    | inl alarmRequest =>
      let '(validationSuccessful, validationErrors) :=
        validation.ValidateAlarmRequest alarmRequest in
      if negb validationSuccessful
      then (mkResponse http.StatusBadRequest (H_errors validationErrors), s)
      else
        let '(err, s) := TriggerAlarm id alarmRequest s in
        match err with
        | Some err =>
          if String.eqb (errors.Error err)
               ("device not found with ID: " +:+ itoa id)
          then (mkResponse http.StatusNotFound (H_error (errors.Error err)), s)
          else (mkResponse http.StatusInternalServerError
                  (H_error (errors.Error err)), s)
        | None => (mkResponse http.StatusNoContent NoBody, s)
        end
    end
  end.

End Handler.

End handlers.

(** ** The program as [main] wires it

    [handlers.New(service.NewDeviceService(repository.NewDeviceRepository(db)))]:
    the service the handlers call is [DeviceService] over
    [DeviceRepositoryImpl]. *)

Module app.

#[global] Instance DeviceService_svc
  : handlers.DeviceServiceInterface store.Store := {
  handlers.CreateDevice := store.CreateDevice;
  handlers.GetDeviceByID := service.GetDeviceByID;
  handlers.UpdateDevice := service.UpdateDevice;
  handlers.DeleteDevice := service.DeleteDevice;
  handlers.TriggerAlarm := service.TriggerAlarm
}.

End app.

(** * What the statements refer to *)

Import golang.
Import models.
Import validation.

(** The reason [TriggerAlarm] hands to the repository. *)
Definition formatted (alarm : AlarmRequest.t) : string :=
  "[" +:+ AlarmRequest.Level alarm +:+ "] " +:+ AlarmRequest.Reason alarm.

(** The error [TriggerAlarm] returns for a missing device. *)
Definition not_found (id : Z) : error :=
  errorString ("device not found with ID: " +:+ itoa id).

(** The patch that carries a name and nothing else. *)
Definition only_name (name : string) : DeviceUpdate.t :=
  DeviceUpdate.mk (Some name) None None None None None.

(** A store without devices, and one whose device 1 is named [A], owned by
    [o1] and offline. *)
Definition db_empty : sql.DB := sql.mkDB ∅ 1000 false.

Definition row_A : sql.Row :=
  sql.mkRow "A" (Some "") "CAMERA" "o1" (Some false) (Some "") (Some 0)
    (Some 900) (Some 900).

Definition db_A : sql.DB := sql.mkDB {[ 1 := row_A ]} 1000 false.

Definition device_A : Device.t :=
  Device.mk 1 "o1" "CAMERA" "A" "" false 0 "" 900 900.

(** The patch [{is_online: true}]. *)
Definition patch_online : DeviceUpdate.t :=
  DeviceUpdate.mk None None (Some true) None None None.

(** The request of the service tests. *)
Definition smoke_alarm : AlarmRequest.t :=
  AlarmRequest.mk "Smoke detected" "CRITICAL".

(** A device whose owner and description hold two-byte characters. *)
Definition device_accented : DeviceCreate.t :=
  DeviceCreate.mk "Device123" (validation_test.generateString 250 0xE9)
    "CAMERA" (validation_test.generateString 25 0xE9).

(** A request whose reason has the full 200 bytes, at level INFO. *)
Definition long_alarm : AlarmRequest.t :=
  AlarmRequest.mk (validation_test.generateString 200 97) "INFO".

(** A store with device 1 and its counter, and a device to create. *)
Definition store_A : store.Store := store.mkStore db_A 1.




(** * Properties *)

(** ** The device type registry *)

(** C9. [IsValid] is true exactly on the six identifiers CAMERA,
    THERMOSTAT, SMOKE_DETECTOR, MOTION_SENSOR, LOCK and UNKNOWN. The
    comparison is exact: another case, surrounding blanks, the empty
    string and any other string give false. *)
Theorem IsValid_exactly_the_six :
  (forall dt : DeviceType,
     IsValid dt = true <->
     dt = "CAMERA" \/ dt = "THERMOSTAT" \/ dt = "SMOKE_DETECTOR" \/
     dt = "MOTION_SENSOR" \/ dt = "LOCK" \/ dt = "UNKNOWN") /\
  IsValid "camera" = false /\ IsValid "Camera" = false /\
  IsValid "" = false /\ IsValid " CAMERA" = false /\
  IsValid "CAMERA " = false /\ IsValid "LIGHT_BULB" = false.
Proof.
  split; [| by repeat split].
  intros dt. unfold IsValid.
  destruct (_ || _) eqn:E.
  - split; [intros _ | done].
    repeat (apply orb_prop in E as [E | E]);
      apply String.eqb_eq in E; subst dt; unfold DeviceTypeCamera,
      DeviceTypeThermostat, DeviceTypeSmokeDetector, DeviceTypeMotionSensor,
      DeviceTypeLock, DeviceTypeUnknown; tauto.
  - split; [done |].
    intros H. exfalso.
    assert (Hd : is_true false); [| done].
    rewrite <- E.
    destruct H as [-> | [-> | [-> | [-> | [-> | ->]]]]]; reflexivity.
Qed.

(** ** The validation engine *)

Section ErrorMap.
Implicit Types (errors : gmap string string) (k field msg : string).

(** An [if] that records a message under [field]: the key is in the
    resulting map when the guard held or the key was there before. *)
Lemma elem_of_dom_flagged (b : bool) field msg errors k :
  k ∈ dom (if b then <[field := msg]> errors else errors) <->
  (k = field /\ b = true) \/ k ∈ dom errors.
Proof.
  destruct b.
  - rewrite dom_insert_L, elem_of_union, elem_of_singleton. tauto.
  - split; [tauto | intros [[_ ?] | ?]; [discriminate | assumption]].
Qed.

(** What such an [if] leaves under a key. *)
Lemma lookup_flagged (b : bool) field msg errors k :
  (if b then <[field := msg]> errors else errors) !! k =
  if b && bool_decide (field = k) then Some msg else errors !! k.
Proof.
  destruct b; simpl; [| done].
  case_bool_decide as E.
  - subst. apply lookup_insert_eq.
  - by apply lookup_insert_ne.
Qed.

(** [len(errors) == 0] holds of the empty map only. *)
Lemma len_zero_iff_empty errors :
  (Z.of_nat (size errors) =? 0) = true <-> errors = ∅.
Proof.
  rewrite Z.eqb_eq, <- map_size_empty_iff. lia.
Qed.

End ErrorMap.

(** C4. [ValidateDeviceCreate] reports every failing field, whatever the
    other fields are: a key is in the error map exactly when the check of
    its field fails. Its first result is true exactly when the map is
    empty. On name [Device@123], an invalid type, an empty owner and a
    description of 501 characters the result is false with the keys
    [name], [device_type], [owned_by] and [description]. *)
Theorem ValidateDeviceCreate_accumulates :
  (forall (device : DeviceCreate.t) (k : string),
     k ∈ dom (snd (ValidateDeviceCreate device)) <->
     (k = "name" /\ IsValidDeviceName (DeviceCreate.Name device) = false) \/
     (k = "device_type" /\
      IsValidDeviceType (DeviceCreate.DeviceType device) = false) \/
     (k = "owned_by" /\ IsValidOwner (DeviceCreate.OwnedBy device) = false) \/
     (k = "description" /\ len (DeviceCreate.Description device) > 500)) /\
  (forall device : DeviceCreate.t,
     fst (ValidateDeviceCreate device) = true <->
     snd (ValidateDeviceCreate device) = ∅) /\
  (let device :=
     DeviceCreate.mk "Device@123" (validation_test.generateString 501 97)
       "INVALID_TYPE" "" in
   len (DeviceCreate.Description device) = 501 /\
   fst (ValidateDeviceCreate device) = false /\
   dom (snd (ValidateDeviceCreate device)) =
     ({[ "name"; "device_type"; "owned_by"; "description" ]} : gset string)).
Proof.
  split; [| split].
  - intros device k. unfold ValidateDeviceCreate. cbn [snd].
    rewrite !elem_of_dom_flagged, dom_empty_L, !negb_true_iff, Z.gtb_gt.
    rewrite elem_of_empty. unfold MaxDescriptionLength. tauto.
  - intros device. unfold ValidateDeviceCreate. cbn [fst snd].
    apply len_zero_iff_empty.
  - cbv zeta. split; [| split].
    + by vm_compute.
    + by vm_compute.
    + apply (bool_decide_unpack _). by vm_compute.
Qed.

(** C5. [ValidateDeviceUpdate] flags a field exactly when it is present
    and fails its check, so no key ever stands for an absent field. The
    checks are those of creation: on a patch that carries the four fields
    of a creation request the error map is the one
    [ValidateDeviceCreate] returns for them. A patch whose only field is
    an invalid name gives exactly the key [name]. *)
Theorem ValidateDeviceUpdate_present_fields_only :
  (forall (device : DeviceUpdate.t) (k : string),
     k ∈ dom (snd (ValidateDeviceUpdate device)) <->
     (k = "name" /\
      exists v, DeviceUpdate.Name device = Some v /\
                IsValidDeviceName v = false) \/
     (k = "owned_by" /\
      exists v, DeviceUpdate.OwnedBy device = Some v /\
                IsValidOwner v = false) \/
     (k = "description" /\
      exists v, DeviceUpdate.Description device = Some v /\ len v > 500) \/
     (k = "last_alarm_reason" /\
      exists v, DeviceUpdate.LastAlarmReason device = Some v /\
                len v > 200) \/
     (k = "device_type" /\
      exists v, DeviceUpdate.DeviceType device = Some v /\
                IsValidDeviceType v = false)) /\
  (forall (name description owner : string) (dt : DeviceType)
          (online : option bool),
     snd (ValidateDeviceUpdate
            (DeviceUpdate.mk (Some name) (Some description) online
               (Some owner) (Some dt) None)) =
     snd (ValidateDeviceCreate
            (DeviceCreate.mk name description dt owner))) /\
  (forall name : string,
     dom (snd (ValidateDeviceUpdate (only_name name))) =
     if IsValidDeviceName name then (∅ : gset string) else {[ "name" ]}) /\
  dom (snd (ValidateDeviceUpdate (only_name "Invalid Name!"))) =
    ({[ "name" ]} : gset string).
Proof.
  split; [| split; [| split]].
  - intros device k. unfold ValidateDeviceUpdate. cbn [snd].
    rewrite !elem_of_dom_flagged, dom_empty_L.
    unfold MaxDescriptionLength, MaxLastAlarmReasonLength.
    destruct device as [n d o w t r]; cbn.
    assert (Hp : forall (A : Type) (p : option A) (f : A -> bool),
               present_and p f = true <-> exists v, p = Some v /\ f v = true).
    { intros A [v |] f; cbn.
      - split; [eauto | by intros (v' & [= <-] & Hf)].
      - split; [done | by intros (v' & [=] & _)]. }
    rewrite !Hp.
    setoid_rewrite negb_true_iff. setoid_rewrite Z.gtb_gt.
    rewrite elem_of_empty. tauto.
  - intros name description owner dt online.
    unfold ValidateDeviceUpdate, ValidateDeviceCreate. cbn.
    apply map_eq. intros k. rewrite !lookup_flagged, !lookup_empty.
    repeat case_bool_decide; subst; try done;
      repeat (match goal with |- context [negb ?b] => destruct b end;
              cbn; try done);
      repeat (match goal with |- context [?a >? ?b] => destruct (a >? b) end;
              cbn; try done).
  - intros name. unfold ValidateDeviceUpdate, only_name. cbn.
    destruct (IsValidDeviceName name); cbn.
    + by rewrite dom_empty_L.
    + by rewrite dom_insert_L, dom_empty_L, union_empty_r_L.
  - apply (bool_decide_unpack _). by vm_compute.
Qed.

(** C6. [ValidateAlarmRequest] checks the reason and the level
    independently: what it records under [reason] depends on the reason
    alone (the first failing rule decides the message: empty, then longer
    than 200), and what it records under [level] depends on the level
    alone, which passes only as INFO, WARNING or CRITICAL, compared
    exactly. No other key is used, the first result is true exactly when
    nothing was recorded, and on an empty reason with level
    [INVALID_LEVEL] the result is false with the keys [reason] and
    [level]. *)
Theorem ValidateAlarmRequest_checks_both :
  (forall alarm : AlarmRequest.t,
     snd (ValidateAlarmRequest alarm) !! "reason" =
       (if len (AlarmRequest.Reason alarm) <? 1
        then Some "reason cannot be empty"
        else if len (AlarmRequest.Reason alarm) >? 200
        then Some "reason must not exceed 200 characters"
        else None) /\
     snd (ValidateAlarmRequest alarm) !! "level" =
       (if bool_decide
             (AlarmRequest.Level alarm ∈ ["INFO"; "WARNING"; "CRITICAL"])
        then None
        else Some "level must be one of: INFO, WARNING, CRITICAL") /\
     dom (snd (ValidateAlarmRequest alarm)) ⊆
       ({[ "reason"; "level" ]} : gset string) /\
     (fst (ValidateAlarmRequest alarm) = true <->
      snd (ValidateAlarmRequest alarm) = ∅)) /\
  (let alarm := AlarmRequest.mk "" "INVALID_LEVEL" in
   fst (ValidateAlarmRequest alarm) = false /\
   dom (snd (ValidateAlarmRequest alarm)) =
     ({[ "reason"; "level" ]} : gset string)) /\
  dom (snd (ValidateAlarmRequest (AlarmRequest.mk "Smoke detected" "critical")))
    = ({[ "level" ]} : gset string).
Proof.
  split; [| split].
  - intros [reason level]. unfold ValidateAlarmRequest. cbn [fst snd].
    cbn [AlarmRequest.Reason AlarmRequest.Level].
    unfold MinAlarmReasonLength, MaxLastAlarmReasonLength.
    split; [| split; [| split]].
    + rewrite lookup_flagged, bool_decide_false, andb_false_r by done.
      destruct (len reason <? 1), (len reason >? 200); cbn;
        rewrite ?lookup_insert_eq, ?lookup_empty; reflexivity.
    + rewrite lookup_flagged. rewrite bool_decide_true by done.
      rewrite andb_true_r.
      assert (Hlevel :
        negb (String.eqb level "INFO") && negb (String.eqb level "WARNING")
          && negb (String.eqb level "CRITICAL") =
        negb (bool_decide (level ∈ ["INFO"; "WARNING"; "CRITICAL"]))).
      { case_bool_decide as Hin; cbn.
        - rewrite !elem_of_cons, elem_of_nil in Hin.
          destruct Hin as [-> | [-> | [-> | []]]]; reflexivity.
        - rewrite !elem_of_cons, elem_of_nil in Hin.
          destruct (String.eqb_spec level "INFO"); [tauto |].
          destruct (String.eqb_spec level "WARNING"); [tauto |].
          destruct (String.eqb_spec level "CRITICAL"); [tauto |].
          reflexivity. }
      rewrite Hlevel. case_bool_decide; cbn; [| reflexivity].
      destruct (len reason <? 1), (len reason >? 200); cbn;
        rewrite ?lookup_insert_ne, ?lookup_empty by done; reflexivity.
    + intros k Hk. apply elem_of_dom_flagged in Hk.
      rewrite elem_of_union, !elem_of_singleton.
      destruct Hk as [[-> _] | Hk]; [tauto |].
      destruct (len reason <? 1), (len reason >? 200);
        rewrite ?dom_insert_L, ?dom_empty_L, ?elem_of_union,
          ?elem_of_singleton, ?elem_of_empty in Hk; tauto.
    + apply len_zero_iff_empty.
  - cbv zeta. split.
    + by vm_compute.
    + apply (bool_decide_unpack _). by vm_compute.
  - apply (bool_decide_unpack _). by vm_compute.
Qed.

(** C1. The length checks count bytes, not characters. An owner made of
    fifty copies of U+00E9 (a two-byte character) has 50 characters and
    100 bytes, and [IsValidOwner] rejects it; the same happens to a
    description of 500 such characters and to an alarm reason of 200.
    [IsValidOwner] accepts exactly the owners of 1 to 50 bytes. *)
Theorem length_checks_count_bytes :
  (let owner := validation_test.generateString MaxOwnerLength 0xE9 in
   RuneCountInString owner = 50 /\ len owner = 100 /\
   IsValidOwner owner = false) /\
  (let description :=
     validation_test.generateString MaxDescriptionLength 0xE9 in
   RuneCountInString description = 500 /\
   snd (ValidateDeviceCreate
          (DeviceCreate.mk "Device123" description "CAMERA" "owner1"))
     !! "description" = Some "must not exceed 500 characters") /\
  (let reason :=
     validation_test.generateString MaxLastAlarmReasonLength 0xE9 in
   RuneCountInString reason = 200 /\
   snd (ValidateAlarmRequest (AlarmRequest.mk reason "INFO")) !! "reason" =
     Some "reason must not exceed 200 characters") /\
  (forall owner : string,
     IsValidOwner owner = true <-> 1 <= len owner <= 50).
Proof.
  split; [| split; [| split]].
  - by vm_compute.
  - by vm_compute.
  - by vm_compute.
  - intros owner. unfold IsValidOwner, MinOwnerLength, MaxOwnerLength. lia.
Qed.

(** ** The repository over the database *)

Section Repository.
Import repository.
Implicit Types (db : sql.DB) (id : Z).

(** [GetByID] reads only. *)
Lemma GetByID_reads_only id db :
  snd (DeviceRepositoryImpl.GetByID id db) = db.
Proof.
  unfold DeviceRepositoryImpl.GetByID.
  destruct (DeviceRepositoryImpl.Scan _); [done |]. by case_decide.
Qed.

(** [Scan] fails with the error of the query or with a conversion error,
    which is never [ErrNoRows] when a row was found. *)
Lemma Scan_row_not_ErrNoRows id (r : sql.Row) :
  DeviceRepositoryImpl.Scan (inl (id, r)) <> inr sql.ErrNoRows.
Proof.
  destruct r as [n [d |] t o [io |] [lr |] [lt |] [ca |] [ua |]]; by cbn.
Qed.

(** The absence marker [(nil, nil)] is returned exactly when the handle is
    open and no row has the identifier. *)
Lemma GetByID_absent_iff id db :
  fst (DeviceRepositoryImpl.GetByID id db) = (None, None) <->
  sql.closed db = false /\ sql.devices db !! id = None.
Proof.
  unfold DeviceRepositoryImpl.GetByID, sql.QueryRow.
  destruct (sql.closed db); [by split; [| intros []] |].
  destruct (sql.devices db !! id) as [r |] eqn:Hrow.
  - split; [| by intros []].
    pose proof (Scan_row_not_ErrNoRows id r) as Hne.
    destruct (DeviceRepositoryImpl.Scan _) as [d | e]; [done |].
    case_decide; [congruence | done].
  - by cbn.
Qed.

(** A device is returned exactly when the handle is open and the row with
    the identifier converts. *)
Lemma GetByID_found_iff id db (device : Device.t) :
  fst (DeviceRepositoryImpl.GetByID id db) = (Some device, None) <->
  sql.closed db = false /\
  exists r, sql.devices db !! id = Some r /\
            DeviceRepositoryImpl.Scan (inl (id, r)) = inl device.
Proof.
  unfold DeviceRepositoryImpl.GetByID, sql.QueryRow.
  destruct (sql.closed db).
  { cbn. split; [done | by intros []]. }
  destruct (sql.devices db !! id) as [r |] eqn:Hrow.
  - destruct (DeviceRepositoryImpl.Scan (inl (id, r))) as [d | e] eqn:Hscan.
    + cbn [fst]. split.
      * intros [= ->]. eauto.
      * intros [_ (r' & Hr & Hs)]. injection Hr as <-.
        rewrite Hscan in Hs. by injection Hs as ->.
    + split.
      * by case_decide.
      * intros [_ (r' & Hr & Hs)]. injection Hr as <-.
        rewrite Hscan in Hs. discriminate.
  - cbn. split; [done | by intros [_ (r' & [=] & _)]].
Qed.

(** A row converts exactly when none of its nullable columns is NULL. *)
Lemma Scan_row_inv id (r : sql.Row) (device : Device.t) :
  DeviceRepositoryImpl.Scan (inl (id, r)) = inl device ->
  r = sql.mkRow (Device.Name device) (Some (Device.Description device))
        (Device.DeviceType device) (Device.OwnedBy device)
        (Some (Device.IsOnline device))
        (Some (Device.LastAlarmReason device))
        (Some (Device.LastAlarmTime device))
        (Some (Device.CreatedAt device)) (Some (Device.UpdatedAt device)) /\
  Device.ID device = id.
Proof.
  destruct r as [n [d |] t o [io |] [lr |] [lt |] [ca |] [ua |]];
    cbn; try discriminate.
  by intros [= <-].
Qed.

End Repository.

(** ** The service over any repository *)

Section Service.
Context {R : Type} {repo : repository.DeviceRepository R}.
Implicit Types (s : R) (id : Z) (alarm : AlarmRequest.t).

(** When the lookup fails, [TriggerAlarm] stops there with its error. *)
Lemma TriggerAlarm_lookup_failed id alarm s device err s1 :
  repository.GetByID id s = ((device, Some err), s1) ->
  service.TriggerAlarm id alarm s = (Some err, s1).
Proof. intros H. unfold service.TriggerAlarm. by rewrite H. Qed.

(** When the lookup finds nothing, [TriggerAlarm] stops there. *)
Lemma TriggerAlarm_absent id alarm s s1 :
  repository.GetByID id s = ((None, None), s1) ->
  service.TriggerAlarm id alarm s = (Some (not_found id), s1).
Proof. intros H. unfold service.TriggerAlarm. by rewrite H. Qed.

(** When the lookup finds a device, [TriggerAlarm] is the repository's
    alarm mutation on the formatted reason. *)
Lemma TriggerAlarm_found id alarm s device s1 :
  repository.GetByID id s = ((Some device, None), s1) ->
  service.TriggerAlarm id alarm s =
  repository.TriggerAlarm id (formatted alarm) s1.
Proof. intros H. unfold service.TriggerAlarm. by rewrite H. Qed.

End Service.

(** ** The update merge *)

(** C3. [Update] on a device the lookup returns as [baseline] succeeds and
    stores, for each of the six fields name, description, online flag,
    owner, device type and last-alarm reason, the value of the patch when
    the patch carries one and the value of the baseline otherwise. The
    identifier, the alarm time and the creation time are kept, the update
    time becomes the current time, and no other row changes. *)
Theorem Update_overrides_field_by_field
    (id : Z) (patch : DeviceUpdate.t) (db : sql.DB) (baseline : Device.t) :
  fst (repository.DeviceRepositoryImpl.GetByID id db) = (Some baseline, None) ->
  exists (db' : sql.DB) (result : Device.t),
    repository.DeviceRepositoryImpl.Update id patch db = (None, db') /\
    fst (repository.DeviceRepositoryImpl.GetByID id db') = (Some result, None) /\
    Device.Name result =
      default (Device.Name baseline) (DeviceUpdate.Name patch) /\
    Device.Description result =
      default (Device.Description baseline) (DeviceUpdate.Description patch) /\
    Device.IsOnline result =
      default (Device.IsOnline baseline) (DeviceUpdate.IsOnline patch) /\
    Device.OwnedBy result =
      default (Device.OwnedBy baseline) (DeviceUpdate.OwnedBy patch) /\
    Device.DeviceType result =
      default (Device.DeviceType baseline) (DeviceUpdate.DeviceType patch) /\
    Device.LastAlarmReason result =
      default (Device.LastAlarmReason baseline)
        (DeviceUpdate.LastAlarmReason patch) /\
    Device.ID result = Device.ID baseline /\
    Device.LastAlarmTime result = Device.LastAlarmTime baseline /\
    Device.CreatedAt result = Device.CreatedAt baseline /\
    Device.UpdatedAt result = sql.CURRENT_TIMESTAMP db /\
    forall id' : Z,
      id' <> id -> sql.devices db' !! id' = sql.devices db !! id'.
Proof.
  intros Hget.
  pose proof (GetByID_reads_only id db) as Hdb.
  destruct (repository.DeviceRepositoryImpl.GetByID id db) as [res db0] eqn:E.
  cbn in Hget, Hdb. subst res db0.
  assert (Hfound :
    fst (repository.DeviceRepositoryImpl.GetByID id db) = (Some baseline, None))
    by (by rewrite E).
  apply GetByID_found_iff in Hfound as (Hopen & r & Hrow & Hscan).
  apply Scan_row_inv in Hscan as [-> Hid].
  unfold repository.DeviceRepositoryImpl.Update. rewrite E.
  unfold sql.Exec_UPDATE. rewrite Hopen.
  eexists. eexists. split; [reflexivity |].
  split.
  { unfold repository.DeviceRepositoryImpl.GetByID, sql.QueryRow.
    cbn [sql.closed sql.devices].
    rewrite lookup_alter_eq, Hrow. cbn. reflexivity. }
  cbn [Device.Name Device.Description Device.IsOnline Device.OwnedBy
       Device.DeviceType Device.LastAlarmReason Device.ID
       Device.LastAlarmTime Device.CreatedAt Device.UpdatedAt sql.devices].
  destruct patch as [[n |] [d |] [o |] [w |] [t |] [a |]]; cbn;
    (repeat split; [by symmetry | intros id' Hne; by apply lookup_alter_ne]).
Qed.

(** The device of the specification's example: baseline [{name: A,
    owner: o1, online: false}] under the patch [{online: true}]. *)
Lemma Update_overrides_field_by_field_example :
  fst (repository.DeviceRepositoryImpl.GetByID 1 db_A) = (Some device_A, None) /\
  exists (db' : sql.DB) (result : Device.t),
    repository.DeviceRepositoryImpl.Update 1 patch_online db_A = (None, db') /\
    fst (repository.DeviceRepositoryImpl.GetByID 1 db') = (Some result, None) /\
    Device.Name result = "A" /\
    Device.Description result = "" /\
    Device.IsOnline result = true /\
    Device.OwnedBy result = "o1" /\
    Device.DeviceType result = "CAMERA" /\
    Device.LastAlarmReason result = "" /\
    Device.ID result = 1 /\
    Device.LastAlarmTime result = 0 /\
    Device.CreatedAt result = 900 /\
    Device.UpdatedAt result = 1000 /\
    forall id' : Z,
      id' <> 1 -> sql.devices db' !! id' = sql.devices db_A !! id'.
Proof.
  split; [by vm_compute |].
  apply (Update_overrides_field_by_field 1 patch_online db_A device_A).
  by vm_compute.
Defined.

(** ** Identifiers without a record *)

(** C2, as stated, fails for [Delete]: identifier 42 has no record in the
    empty store, and deleting it returns no error. *)
Lemma Delete_missing_record_succeeds :
  sql.devices db_empty !! 42 = None /\
  fst (repository.DeviceRepositoryImpl.GetByID 42 db_empty) = (None, None) /\
  repository.DeviceRepositoryImpl.Delete 42 db_empty = (None, db_empty) /\
  service.DeleteDevice 42 db_empty = (None, db_empty).
Proof. by vm_compute. Qed.

(** C2, amended. When the lookup of an identifier yields the absence
    marker, [Update] returns [sql.ErrNoRows] and the service's
    [TriggerAlarm] returns the error [device not found with ID: <id>],
    both leaving the store as it was; [Delete] runs its statement without
    a lookup and returns no error, the store again unchanged. *)
Theorem missing_record_outcomes
    (id : Z) (patch : DeviceUpdate.t) (alarm : AlarmRequest.t) (db : sql.DB) :
  fst (repository.DeviceRepositoryImpl.GetByID id db) = (None, None) ->
  repository.DeviceRepositoryImpl.Update id patch db =
    (Some sql.ErrNoRows, db) /\
  service.TriggerAlarm id alarm db =
    (Some (errorString ("device not found with ID: " +:+ itoa id)), db) /\
  repository.DeviceRepositoryImpl.Delete id db = (None, db).
Proof.
  intros Hget.
  pose proof (GetByID_reads_only id db) as Hdb.
  destruct (repository.DeviceRepositoryImpl.GetByID id db) as [res db0] eqn:E.
  cbn in Hget, Hdb. subst res db0.
  split; [| split].
  - unfold repository.DeviceRepositoryImpl.Update. by rewrite E.
  - by apply TriggerAlarm_absent.
  - assert (Habs :
      fst (repository.DeviceRepositoryImpl.GetByID id db) = (None, None))
      by (by rewrite E).
    apply GetByID_absent_iff in Habs as [Hopen Hrow].
    unfold repository.DeviceRepositoryImpl.Delete, sql.Exec_DELETE.
    rewrite Hopen, delete_id by done.
    destruct db as [rows now c]. cbn in *. by subst c.
Qed.

(** Identifier 42 in the empty store. *)
Lemma missing_record_outcomes_example :
  fst (repository.DeviceRepositoryImpl.GetByID 42 db_empty) = (None, None) /\
  repository.DeviceRepositoryImpl.Update 42 patch_online db_empty =
    (Some sql.ErrNoRows, db_empty) /\
  service.TriggerAlarm 42 smoke_alarm db_empty =
    (Some (errorString ("device not found with ID: " +:+ itoa 42)), db_empty) /\
  repository.DeviceRepositoryImpl.Delete 42 db_empty = (None, db_empty).
Proof.
  split; [by vm_compute |].
  apply (missing_record_outcomes 42 patch_online smoke_alarm db_empty).
  by vm_compute.
Defined.

(** ** The alarm trigger *)

(** C7. When the lookup of [id] returns a device, [TriggerAlarm] of the
    service succeeds and the row of [id] then holds, as its alarm reason,
    the text [[LEVEL] reason] built from the request, whatever the level
    is; the alarm time and the update time are the current time and the
    other fields are those of the device found. *)
Theorem TriggerAlarm_persists_formatted_reason
    (id : Z) (alarm : AlarmRequest.t) (db : sql.DB) (device : Device.t) :
  fst (repository.DeviceRepositoryImpl.GetByID id db) = (Some device, None) ->
  exists db' : sql.DB,
    service.TriggerAlarm id alarm db = (None, db') /\
    sql.last_alarm_reason <$> sql.devices db' !! id =
      Some (Some ("[" +:+ AlarmRequest.Level alarm +:+ "] " +:+
                  AlarmRequest.Reason alarm)) /\
    fst (repository.DeviceRepositoryImpl.GetByID id db') =
      (Some (Device.mk (Device.ID device) (Device.OwnedBy device)
               (Device.DeviceType device) (Device.Name device)
               (Device.Description device) (Device.IsOnline device)
               (sql.CURRENT_TIMESTAMP db)
               ("[" +:+ AlarmRequest.Level alarm +:+ "] " +:+
                AlarmRequest.Reason alarm)
               (Device.CreatedAt device) (sql.CURRENT_TIMESTAMP db)),
       None) /\
    forall id' : Z,
      id' <> id -> sql.devices db' !! id' = sql.devices db !! id'.
Proof.
  intros Hget.
  pose proof (GetByID_reads_only id db) as Hdb.
  destruct (repository.DeviceRepositoryImpl.GetByID id db) as [res db0] eqn:E.
  cbn in Hget, Hdb. subst res db0.
  assert (Hfound :
    fst (repository.DeviceRepositoryImpl.GetByID id db) = (Some device, None))
    by (by rewrite E).
  apply GetByID_found_iff in Hfound as (Hopen & r & Hrow & Hscan).
  apply Scan_row_inv in Hscan as [-> Hid].
  rewrite (TriggerAlarm_found (repo := repository.DeviceRepositoryImpl_repo)
             id alarm db device db E).
  cbn [repository.TriggerAlarm repository.DeviceRepositoryImpl_repo].
  unfold repository.DeviceRepositoryImpl.TriggerAlarm, sql.Exec_UPDATE.
  rewrite Hopen.
  eexists. split; [reflexivity |].
  cbn [sql.devices]. split; [| split].
  - by rewrite lookup_alter_eq, Hrow.
  - unfold repository.DeviceRepositoryImpl.GetByID, sql.QueryRow.
    cbn [sql.closed sql.devices].
    rewrite lookup_alter_eq, Hrow. cbn. by rewrite Hid.
  - intros id' Hne. by apply lookup_alter_ne.
Qed.

(** The request [{reason: Smoke detected, level: CRITICAL}] on device 1:
    the stored reason is [[CRITICAL] Smoke detected]. *)
Lemma TriggerAlarm_persists_formatted_reason_example :
  fst (repository.DeviceRepositoryImpl.GetByID 1 db_A) = (Some device_A, None) /\
  exists db' : sql.DB,
    service.TriggerAlarm 1 smoke_alarm db_A = (None, db') /\
    sql.last_alarm_reason <$> sql.devices db' !! 1 =
      Some (Some "[CRITICAL] Smoke detected") /\
    fst (repository.DeviceRepositoryImpl.GetByID 1 db') =
      (Some (Device.mk 1 "o1" "CAMERA" "A" "" false 1000
               "[CRITICAL] Smoke detected" 900 1000),
       None) /\
    forall id' : Z,
      id' <> 1 -> sql.devices db' !! id' = sql.devices db_A !! id'.
Proof.
  split; [by vm_compute |].
  apply (TriggerAlarm_persists_formatted_reason 1 smoke_alarm db_A device_A).
  by vm_compute.
Defined.

(** The same request against the mock of the service tests: the reason
    the mock receives. *)
Example TriggerAlarm_mock_receives_formatted_reason :
  let m := service_test.newMock (Some device_A) None None in
  service_test.triggerAlarmCalled (snd (service.TriggerAlarm 1 smoke_alarm m))
    = true /\
  service_test.triggerAlarmReason (snd (service.TriggerAlarm 1 smoke_alarm m))
    = "[CRITICAL] Smoke detected".
Proof. by vm_compute. Qed.

Section NoWrite.
Context {R : Type} {repo : repository.DeviceRepository R}.

(** C8. When the lookup of [id] yields the absence marker,
    [TriggerAlarm] of the service fails with the error [device not found
    with ID: <id>] and leaves the repository in the state the lookup left
    it in. Against a repository that records its calls, the lookup is the
    only call recorded, and no recorded call is a write: the alarm
    mutation is not invoked. *)
Theorem TriggerAlarm_absent_makes_no_write
    (id : Z) (alarm : AlarmRequest.t) (s s1 : R) (log : list recorder.Call) :
  repository.GetByID id s = ((None, None), s1) ->
  service.TriggerAlarm id alarm s =
    (Some (errorString ("device not found with ID: " +:+ itoa id)), s1) /\
  service.TriggerAlarm id alarm (s, log) =
    (Some (errorString ("device not found with ID: " +:+ itoa id)),
     (s1, (log ++ [recorder.CallGetByID id])%list)) /\
  forallb (fun c => negb (recorder.is_write c))
    (snd (snd (service.TriggerAlarm id alarm (s, [])))) = true.
Proof.
  intros Hget.
  assert (Hrec : forall log' : list recorder.Call,
    repository.GetByID id (s, log') =
    ((None, None), (s1, (log' ++ [recorder.CallGetByID id])%list))).
  { intros log'. cbn. unfold recorder.logged. cbn. by rewrite Hget. }
  split; [| split].
  - by apply TriggerAlarm_absent.
  - apply TriggerAlarm_absent, Hrec.
  - by rewrite (TriggerAlarm_absent id alarm (s, []) _ (Hrec [])).
Qed.

(** C10. When the lookup of [id] returns an error, with or without a
    device, [TriggerAlarm] of the service returns that very error and
    leaves the repository in the state the lookup left it in. Against a
    repository that records its calls, the lookup is the only call
    recorded, and no recorded call is a write: the alarm mutation is not
    invoked. *)
Theorem TriggerAlarm_lookup_error_makes_no_write
    (id : Z) (alarm : AlarmRequest.t) (s s1 : R) (device : option Device.t)
    (err : error) (log : list recorder.Call) :
  repository.GetByID id s = ((device, Some err), s1) ->
  service.TriggerAlarm id alarm s = (Some err, s1) /\
  service.TriggerAlarm id alarm (s, log) =
    (Some err, (s1, (log ++ [recorder.CallGetByID id])%list)) /\
  forallb (fun c => negb (recorder.is_write c))
    (snd (snd (service.TriggerAlarm id alarm (s, [])))) = true.
Proof.
  intros Hget.
  assert (Hrec : forall log' : list recorder.Call,
    repository.GetByID id (s, log') =
    ((device, Some err), (s1, (log' ++ [recorder.CallGetByID id])%list))).
  { intros log'. cbn. unfold recorder.logged. cbn. by rewrite Hget. }
  split; [| split].
  - by apply (TriggerAlarm_lookup_failed id alarm s device).
  - apply (TriggerAlarm_lookup_failed id alarm (s, log) device), Hrec.
  - by rewrite (TriggerAlarm_lookup_failed id alarm (s, []) device err _
                  (Hrec [])).
Qed.

End NoWrite.

(** The case [Device not found] of the service tests: identifier 99
    against a mock whose lookup returns nothing. *)
Lemma TriggerAlarm_absent_makes_no_write_example :
  let m := service_test.newMock None None None in
  let m1 := snd (service_test.GetByID 99 m) in
  repository.GetByID 99 m = ((None, None), m1) /\
  service.TriggerAlarm 99 smoke_alarm m =
    (Some (errorString ("device not found with ID: " +:+ itoa 99)), m1) /\
  service.TriggerAlarm 99 smoke_alarm (m, []) =
    (Some (errorString ("device not found with ID: " +:+ itoa 99)),
     (m1, ([] ++ [recorder.CallGetByID 99])%list)) /\
  forallb (fun c => negb (recorder.is_write c))
    (snd (snd (service.TriggerAlarm 99 smoke_alarm (m, [])))) = true.
Proof.
  cbv zeta. split; [by vm_compute |].
  apply (TriggerAlarm_absent_makes_no_write 99 smoke_alarm
           (service_test.newMock None None None) _ []).
  by vm_compute.
Defined.

(** In that case the mock was never asked to trigger an alarm. *)
Example TriggerAlarm_absent_mock_not_called :
  let m := service_test.newMock None None None in
  service_test.triggerAlarmCalled (snd (service.TriggerAlarm 99 smoke_alarm m))
    = false.
Proof. by vm_compute. Qed.

(** The case [GetByID database error] of the service tests. *)
Lemma TriggerAlarm_lookup_error_makes_no_write_example :
  let err := errorString "database error" in
  let m := service_test.newMock None (Some err) None in
  let m1 := snd (service_test.GetByID 1 m) in
  repository.GetByID 1 m = ((None, Some err), m1) /\
  service.TriggerAlarm 1 smoke_alarm m = (Some err, m1) /\
  service.TriggerAlarm 1 smoke_alarm (m, []) =
    (Some err, (m1, ([] ++ [recorder.CallGetByID 1])%list)) /\
  forallb (fun c => negb (recorder.is_write c))
    (snd (snd (service.TriggerAlarm 1 smoke_alarm (m, [])))) = true.
Proof.
  cbv zeta. split; [by vm_compute |].
  apply (TriggerAlarm_lookup_error_makes_no_write 1 smoke_alarm
           (service_test.newMock None (Some (errorString "database error"))
              None)
           _ None (errorString "database error") []).
  by vm_compute.
Defined.

(** In that case too the mock was never asked to trigger an alarm, and on
    the database a closed handle fails the lookup and nothing is
    written. *)
Example TriggerAlarm_lookup_error_instances :
  (let m := service_test.newMock (Some device_A)
              (Some (errorString "database error")) None in
   service_test.triggerAlarmCalled
     (snd (service.TriggerAlarm 1 smoke_alarm m)) = false) /\
  (let db := sql.mkDB {[ 1 := row_A ]} 1000 true in
   service.TriggerAlarm 1 smoke_alarm db = (Some sql.errDBClosed, db)).
Proof. by vm_compute. Qed.

(** * Further properties *)

(** ** The registry and the validator *)

(** X1. The registry lists exactly the types the validator accepts: a type
    is valid if and only if it is the [ID] of an entry of
    [GetAllDeviceTypes]. The six entries have distinct identifiers, and
    none has an empty display name or description. *)
Theorem registry_lists_the_valid_types :
  (forall dt : DeviceType,
     IsValidDeviceType dt = true <->
     dt ∈ map DeviceTypeInfo.ID GetAllDeviceTypes) /\
  NoDup (map DeviceTypeInfo.ID GetAllDeviceTypes) /\
  length GetAllDeviceTypes = 6%nat /\
  Forall (fun t => DeviceTypeInfo.DisplayName t <> "" /\
                   DeviceTypeInfo.Description t <> "")
    GetAllDeviceTypes.
Proof.
  split; [| split; [| split]].
  - intros dt. unfold IsValidDeviceType, IsValid. cbn [map GetAllDeviceTypes
      DeviceTypeInfo.ID].
    rewrite !elem_of_cons, elem_of_nil.
    destruct (_ || _) eqn:E.
    + split; [intros _ | done].
      repeat (apply orb_prop in E; destruct E as [E | E]);
        apply String.eqb_eq in E; tauto.
    + split; [done |]. intros H. exfalso.
      assert (Hd : is_true false); [| done].
      rewrite <- E.
      destruct H as [-> | [-> | [-> | [-> | [-> | [-> | []]]]]]]; reflexivity.
  - apply (bool_decide_unpack _). by vm_compute.
  - reflexivity.
  - repeat constructor; discriminate.
Qed.

(** ** Bytes and characters *)

Section Runes.
Implicit Types (s : string) (c : ascii).

(** A string has at most as many characters as bytes. *)
Lemma RuneCountInString_le_len_aux (n : nat) s :
  (String.length s <= n)%nat -> 0 <= RuneCountInString s <= len s.
Proof.
  revert s. induction n as [| n IH]; intros s Hn.
  { destruct s; cbn in Hn; [by cbn | lia]. }
  destruct s as [| c s1]; [by cbn |].
  unfold len in *. cbn [RuneCountInString].
  repeat case_match; subst; cbn [String.length] in *;
    repeat match goal with
    | |- context [RuneCountInString ?t] =>
      lazymatch goal with
      | _ : 0 <= RuneCountInString t <= _ |- _ => fail
      | _ => pose proof (IH t ltac:(cbn [String.length]; lia))
      end
    end; cbn [String.length] in *; lia.
Qed.

Lemma RuneCountInString_le_len s : 0 <= RuneCountInString s <= len s.
Proof. by apply (RuneCountInString_le_len_aux (String.length s)). Qed.

(** A string that is not empty has at least one character. *)
Lemma RuneCountInString_pos s : s <> "" -> 1 <= RuneCountInString s.
Proof.
  destruct s as [| c s1]; [done | intros _].
  cbn [RuneCountInString].
  repeat case_match; subst;
    match goal with
    | |- context [RuneCountInString ?t] =>
      pose proof (RuneCountInString_le_len t)
    end; lia.
Qed.

(** In a string of bytes below [0x80] every byte is a character. *)
Lemma RuneCountInString_ascii s :
  Forall (fun c => byte c < 0x80) (list_ascii_of_string s) ->
  RuneCountInString s = len s.
Proof.
  unfold len. induction s as [| c s1 IH]; [done |].
  cbn [list_ascii_of_string]. intros H. apply Forall_cons_1 in H as [Hc Hs].
  cbn [RuneCountInString String.length].
  apply Z.ltb_lt in Hc. rewrite Hc, (IH Hs). lia.
Qed.

(** A letter or a digit is below [0x80]. *)
Lemma is_alphanumeric_ascii c : is_alphanumeric c = true -> byte c < 0x80.
Proof.
  unfold is_alphanumeric.
  replace (byte "a") with 97 by reflexivity.
  replace (byte "z") with 122 by reflexivity.
  replace (byte "A") with 65 by reflexivity.
  replace (byte "Z") with 90 by reflexivity.
  replace (byte "0") with 48 by reflexivity.
  replace (byte "9") with 57 by reflexivity.
  lia.
Qed.

(** The pattern matches the texts that are not empty and hold letters and
    digits only. *)
Lemma alphanumericPattern_MatchString_iff s :
  alphanumericPattern_MatchString s = true <->
  s <> "" /\
  Forall (fun c => is_alphanumeric c = true) (list_ascii_of_string s).
Proof.
  unfold alphanumericPattern_MatchString.
  destruct s as [| c s1]; cbn [list_ascii_of_string].
  - split; [done | by intros []].
  - rewrite forallb_forall, Forall_forall.
    setoid_rewrite list_elem_of_In. split; [by split | by intros []].
Qed.

End Runes.

(** X2. A name that [IsValidDeviceName] accepts consists of ASCII letters
    and digits only, so its number of characters is its number of bytes
    and lies between 1 and 100. *)
Theorem valid_name_is_ascii (name : string) :
  IsValidDeviceName name = true ->
  Forall (fun c => is_alphanumeric c = true) (list_ascii_of_string name) /\
  RuneCountInString name = len name /\
  1 <= RuneCountInString name <= 100.
Proof.
  unfold IsValidDeviceName, MinDeviceNameLength, MaxDeviceNameLength.
  destruct (_ || _) eqn:Hlen; [done |].
  intros Hm. apply alphanumericPattern_MatchString_iff in Hm as [_ Hall].
  assert (Hrc : RuneCountInString name = len name).
  { apply RuneCountInString_ascii.
    eapply Forall_impl; [exact Hall |]. apply is_alphanumeric_ascii. }
  split; [done |]. split; [done |]. lia.
Qed.

Lemma valid_name_is_ascii_example :
  IsValidDeviceName "Device123" = true /\
  Forall (fun c => is_alphanumeric c = true)
    (list_ascii_of_string "Device123") /\
  RuneCountInString "Device123" = len "Device123" /\
  1 <= RuneCountInString "Device123" <= 100.
Proof.
  split; [reflexivity |].
  apply (valid_name_is_ascii "Device123"). reflexivity.
Defined.

(** A byte outside the class, wherever it stands, makes the pattern
    fail. *)
Lemma MatchString_other_byte (s1 s2 : string) (c : ascii) :
  is_alphanumeric c = false ->
  alphanumericPattern_MatchString (s1 +:+ String c s2) = false.
Proof.
  intros Hc.
  assert (H : forallb is_alphanumeric
                (list_ascii_of_string (s1 +:+ String c s2)) = false).
  { induction s1 as [| c1 s1 IH].
    - change ("" +:+ String c s2) with (String c s2).
      cbn [list_ascii_of_string forallb]. by rewrite Hc.
    - change (String c1 s1 +:+ String c s2)
        with (String c1 (s1 +:+ String c s2)).
      cbn [list_ascii_of_string forallb]. rewrite IH. apply andb_false_r. }
  unfold alphanumericPattern_MatchString.
  by destruct (list_ascii_of_string _).
Qed.

(** X3. A name that holds, anywhere, a byte that is no ASCII letter or
    digit (a space, a hyphen, an underscore, [@], a byte of a multi-byte
    character) is invalid whatever its length. *)
Theorem name_with_other_byte_is_invalid (s1 s2 : string) (c : ascii) :
  is_alphanumeric c = false ->
  IsValidDeviceName (s1 +:+ String c s2) = false.
Proof.
  intros Hc. unfold IsValidDeviceName.
  destruct (_ || _); [done |]. by apply MatchString_other_byte.
Qed.

Lemma name_with_other_byte_is_invalid_example :
  is_alphanumeric "@" = false /\ IsValidDeviceName "Device@123" = false.
Proof.
  split; [reflexivity |].
  apply (name_with_other_byte_is_invalid "Device" "123" "@"). reflexivity.
Defined.

Section OkIff.
Implicit Types (errors : gmap string string) (field msg : string).

(** An [if] that records a message leaves the map empty exactly when the
    guard failed and the map was empty. *)
Lemma flagged_empty_iff (b : bool) field msg errors :
  (if b then <[field := msg]> errors else errors) = ∅ <->
  b = false /\ errors = ∅.
Proof.
  destruct b.
  - split; [intros H; by apply insert_non_empty in H | by intros []].
  - tauto.
Qed.

(** The guard of a field of a patch fails exactly when the field is absent
    or passes the check. *)
Lemma present_and_false_iff {A : Type} (p : option A) (failing : A -> bool) :
  present_and p failing = false <-> forall v, p = Some v -> failing v = false.
Proof.
  destruct p as [v |]; cbn.
  - split; [by intros H v' [= <-] | eauto].
  - split; [done | done].
Qed.

End OkIff.

(** X4. [ValidateDeviceCreate] succeeds exactly when the name is valid, the
    type is valid, the owner is valid and the description has at most 500
    bytes. *)
Theorem ValidateDeviceCreate_ok_iff (device : DeviceCreate.t) :
  fst (ValidateDeviceCreate device) = true <->
  IsValidDeviceName (DeviceCreate.Name device) = true /\
  IsValidDeviceType (DeviceCreate.DeviceType device) = true /\
  IsValidOwner (DeviceCreate.OwnedBy device) = true /\
  len (DeviceCreate.Description device) <= 500.
Proof.
  unfold ValidateDeviceCreate. cbn [fst].
  rewrite len_zero_iff_empty, !flagged_empty_iff, !negb_false_iff.
  unfold MaxDescriptionLength.
  destruct (Z.gtb_spec (len (DeviceCreate.Description device)) 500);
    split; intros; destruct_and?; repeat split; try done; lia.
Qed.

(** X5. [ValidateDeviceUpdate] succeeds exactly when every field the patch
    carries passes its check; the online flag is never checked, and the
    empty patch succeeds. *)
Theorem ValidateDeviceUpdate_ok_iff (device : DeviceUpdate.t) :
  fst (ValidateDeviceUpdate device) = true <->
  (forall v, DeviceUpdate.Name device = Some v ->
             IsValidDeviceName v = true) /\
  (forall v, DeviceUpdate.OwnedBy device = Some v ->
             IsValidOwner v = true) /\
  (forall v, DeviceUpdate.Description device = Some v -> len v <= 500) /\
  (forall v, DeviceUpdate.LastAlarmReason device = Some v -> len v <= 200) /\
  (forall v, DeviceUpdate.DeviceType device = Some v ->
             IsValidDeviceType v = true).
Proof.
  unfold ValidateDeviceUpdate. cbn [fst].
  rewrite len_zero_iff_empty, !flagged_empty_iff, !present_and_false_iff.
  unfold MaxDescriptionLength, MaxLastAlarmReasonLength.
  setoid_rewrite negb_false_iff.
  assert (Hgt : forall a b : Z, (a >? b) = false <-> a <= b).
  { intros a b. destruct (Z.gtb_spec a b); split; (done || lia). }
  setoid_rewrite Hgt. tauto.
Qed.

(** X6. [ValidateAlarmRequest] succeeds exactly when the reason has
    between 1 and 200 bytes and the level is INFO, WARNING or CRITICAL. *)
Theorem ValidateAlarmRequest_ok_iff (alarm : AlarmRequest.t) :
  fst (ValidateAlarmRequest alarm) = true <->
  1 <= len (AlarmRequest.Reason alarm) <= 200 /\
  AlarmRequest.Level alarm ∈ ["INFO"; "WARNING"; "CRITICAL"].
Proof.
  unfold ValidateAlarmRequest. cbn [fst].
  rewrite len_zero_iff_empty, flagged_empty_iff.
  unfold MinAlarmReasonLength, MaxLastAlarmReasonLength.
  rewrite !elem_of_cons, elem_of_nil.
  destruct (Z.ltb_spec (len (AlarmRequest.Reason alarm)) 1);
    [| destruct (Z.gtb_spec (len (AlarmRequest.Reason alarm)) 200)];
    destruct (String.eqb_spec (AlarmRequest.Level alarm) "INFO");
    destruct (String.eqb_spec (AlarmRequest.Level alarm) "WARNING");
    destruct (String.eqb_spec (AlarmRequest.Level alarm) "CRITICAL");
    cbn; split;
    try (intros [_ H']; by apply insert_non_empty in H');
    try (intros [? _]; discriminate);
    try (intros [? ?]; split; [done | lia]);
    try (intros [? ?]; split; [lia | tauto]);
    try (intros [? ?]; lia);
    try (intros [? ?]; tauto).
Qed.

(** X7. What [ValidateDeviceCreate] accepts is within the limits counted in
    characters too: the name has 1 to 100 characters, the owner 1 to 50
    and the description at most 500, because a string never has more
    characters than bytes. *)
Theorem accepted_device_within_character_limits (device : DeviceCreate.t) :
  fst (ValidateDeviceCreate device) = true ->
  1 <= RuneCountInString (DeviceCreate.Name device) <= 100 /\
  1 <= RuneCountInString (DeviceCreate.OwnedBy device) <= 50 /\
  0 <= RuneCountInString (DeviceCreate.Description device) <= 500.
Proof.
  unfold ValidateDeviceCreate. cbn [fst].
  rewrite len_zero_iff_empty, !flagged_empty_iff, !negb_false_iff.
  unfold MaxDescriptionLength.
  intros (Hdesc & Howner & _ & Hname & _).
  pose proof (RuneCountInString_le_len (DeviceCreate.Name device)).
  pose proof (RuneCountInString_le_len (DeviceCreate.OwnedBy device)).
  pose proof (RuneCountInString_le_len (DeviceCreate.Description device)).
  assert (Hn : DeviceCreate.Name device <> "").
  { intros E. by rewrite E in Hname. }
  assert (Ho : DeviceCreate.OwnedBy device <> "").
  { intros E. by rewrite E in Howner. }
  pose proof (RuneCountInString_pos _ Hn).
  pose proof (RuneCountInString_pos _ Ho).
  unfold IsValidDeviceName, MinDeviceNameLength, MaxDeviceNameLength in Hname.
  destruct (Z.ltb_spec (len (DeviceCreate.Name device)) 1); [done |].
  destruct (Z.gtb_spec (len (DeviceCreate.Name device)) 100); [done |].
  unfold IsValidOwner, MinOwnerLength, MaxOwnerLength in Howner.
  destruct (Z.gtb_spec (len (DeviceCreate.Description device)) 500); [done |].
  lia.
Qed.

Lemma accepted_device_within_character_limits_example :
  fst (ValidateDeviceCreate device_accented) = true /\
  1 <= RuneCountInString (DeviceCreate.Name device_accented) <= 100 /\
  1 <= RuneCountInString (DeviceCreate.OwnedBy device_accented) <= 50 /\
  0 <= RuneCountInString (DeviceCreate.Description device_accented) <= 500.
Proof.
  split; [by vm_compute |].
  apply (accepted_device_within_character_limits device_accented).
  by vm_compute.
Defined.

(** X8. On an owner of ASCII bytes the check counts characters:
    [IsValidOwner] accepts it exactly when it has 1 to 50 characters. *)
Theorem IsValidOwner_ascii_counts_characters (owner : string) :
  Forall (fun c => byte c < 0x80) (list_ascii_of_string owner) ->
  (IsValidOwner owner = true <-> 1 <= RuneCountInString owner <= 50).
Proof.
  intros Hascii. rewrite (RuneCountInString_ascii owner Hascii).
  unfold IsValidOwner, MinOwnerLength, MaxOwnerLength. lia.
Qed.

Lemma IsValidOwner_ascii_counts_characters_example :
  Forall (fun c => byte c < 0x80) (list_ascii_of_string "owner1") /\
  (IsValidOwner "owner1" = true <-> 1 <= RuneCountInString "owner1" <= 50).
Proof.
  assert (H : Forall (fun c => byte c < 0x80) (list_ascii_of_string "owner1")).
  { repeat constructor. }
  split; [exact H |].
  exact (IsValidOwner_ascii_counts_characters "owner1" H).
Defined.

(** X9. The message under a key depends on the key alone, and creation and
    update use the same message for the same key. Each message spells out
    the limit the check applies; the one for the type lists the registry
    in its order. *)
Theorem validation_messages (device : DeviceCreate.t) (patch : DeviceUpdate.t) :
  let created := snd (ValidateDeviceCreate device) in
  let updated := snd (ValidateDeviceUpdate patch) in
  let msg_name :=
    "must be between 1-100 characters and contain only alphanumeric characters (A-Z, a-z, 0-9)" in
  let msg_type :=
    "must be one of: CAMERA, THERMOSTAT, SMOKE_DETECTOR, MOTION_SENSOR, LOCK, UNKNOWN" in
  let msg_owner := "must be between 1-50 characters" in
  created !! "name" =
    (if IsValidDeviceName (DeviceCreate.Name device)
     then None else Some msg_name) /\
  created !! "device_type" =
    (if IsValidDeviceType (DeviceCreate.DeviceType device)
     then None else Some msg_type) /\
  created !! "owned_by" =
    (if IsValidOwner (DeviceCreate.OwnedBy device)
     then None else Some msg_owner) /\
  created !! "description" =
    (if len (DeviceCreate.Description device) >? 500
     then Some "must not exceed 500 characters" else None) /\
  updated !! "name" =
    (if present_and (DeviceUpdate.Name patch)
          (fun v => negb (IsValidDeviceName v))
     then Some msg_name else None) /\
  updated !! "device_type" =
    (if present_and (DeviceUpdate.DeviceType patch)
          (fun v => negb (IsValidDeviceType v))
     then Some msg_type else None) /\
  updated !! "owned_by" =
    (if present_and (DeviceUpdate.OwnedBy patch)
          (fun v => negb (IsValidOwner v))
     then Some msg_owner else None) /\
  updated !! "description" =
    (if present_and (DeviceUpdate.Description patch) (fun v => len v >? 500)
     then Some "must not exceed 500 characters" else None) /\
  updated !! "last_alarm_reason" =
    (if present_and (DeviceUpdate.LastAlarmReason patch)
          (fun v => len v >? 200)
     then Some "must not exceed 200 characters" else None).
Proof.
  cbv zeta. unfold ValidateDeviceCreate, ValidateDeviceUpdate. cbn [snd].
  unfold MaxDescriptionLength, MaxLastAlarmReasonLength.
  repeat split; rewrite !lookup_flagged, lookup_empty;
    repeat (rewrite bool_decide_false by done; rewrite andb_false_r);
    repeat (rewrite bool_decide_true by done; rewrite andb_true_r);
    repeat (rewrite bool_decide_false by done; rewrite andb_false_r);
    try (by destruct (IsValidDeviceName _));
    try (by destruct (IsValidDeviceType _));
    try (by destruct (IsValidOwner _));
    try (by destruct (_ >? _));
    by destruct (present_and _ _).
Qed.

(** ** The repository: lookups, failed writes, deletion *)

Section RepositoryMore.
Import repository.
Implicit Types (db : sql.DB) (id : Z).

(** [GetByID] with the state it returns. *)
Lemma GetByID_eq id db :
  DeviceRepositoryImpl.GetByID id db =
  (fst (DeviceRepositoryImpl.GetByID id db), db).
Proof.
  pose proof (GetByID_reads_only id db).
  by destruct (DeviceRepositoryImpl.GetByID id db) as [res db0]; simplify_eq/=.
Qed.

(** A statement on an open handle. *)
Lemma Exec_UPDATE_open db (set : sql.Row -> sql.Row) id :
  sql.closed db = false ->
  sql.Exec_UPDATE db set id =
  (None, sql.mkDB (alter set id (sql.devices db)) (sql.CURRENT_TIMESTAMP db)
           false).
Proof. intros H. unfold sql.Exec_UPDATE. by rewrite H. Qed.

(** A statement that fails leaves the database as it was. *)
Lemma Exec_UPDATE_failed db (set : sql.Row -> sql.Row) id :
  is_Some (fst (sql.Exec_UPDATE db set id)) ->
  snd (sql.Exec_UPDATE db set id) = db.
Proof.
  unfold sql.Exec_UPDATE. destruct (sql.closed db); [done |].
  cbn. by intros [? [=]].
Qed.

(** [Update] on a device the lookup returns is the [UPDATE] statement on
    the merged values. *)
Lemma Update_found id (patch : DeviceUpdate.t) db (baseline : Device.t) :
  fst (DeviceRepositoryImpl.GetByID id db) = (Some baseline, None) ->
  DeviceRepositoryImpl.Update id patch db =
  sql.Exec_UPDATE db
    (DeviceRepositoryImpl.set_Update (sql.CURRENT_TIMESTAMP db)
       (default (Device.Name baseline) (DeviceUpdate.Name patch))
       (default (Device.Description baseline) (DeviceUpdate.Description patch))
       (default (Device.DeviceType baseline) (DeviceUpdate.DeviceType patch))
       (default (Device.IsOnline baseline) (DeviceUpdate.IsOnline patch))
       (default (Device.OwnedBy baseline) (DeviceUpdate.OwnedBy patch))
       (default (Device.LastAlarmReason baseline)
          (DeviceUpdate.LastAlarmReason patch)))
    id.
Proof.
  intros H. unfold DeviceRepositoryImpl.Update.
  rewrite GetByID_eq, H.
  by destruct patch as [[n |] [d |] [o |] [w |] [t |] [a |]].
Qed.

(** The service's [TriggerAlarm] on a device the lookup returns is the
    [UPDATE] statement on the formatted reason. *)
Lemma service_TriggerAlarm_found id (alarm : AlarmRequest.t) db
    (device : Device.t) :
  fst (DeviceRepositoryImpl.GetByID id db) = (Some device, None) ->
  service.TriggerAlarm id alarm db =
  sql.Exec_UPDATE db
    (DeviceRepositoryImpl.set_TriggerAlarm (sql.CURRENT_TIMESTAMP db)
       (formatted alarm))
    id.
Proof.
  intros H.
  apply (TriggerAlarm_found (repo := DeviceRepositoryImpl_repo)
           id alarm db device db).
  cbn [GetByID DeviceRepositoryImpl_repo]. by rewrite GetByID_eq, H.
Qed.

End RepositoryMore.

(** X10. [GetByID] never changes the database and never returns a device
    together with an error. It returns a device, whose identifier is the
    one asked for, exactly when the handle is open and the row has no
    NULL column; the absence marker exactly when the handle is open and
    there is no row; otherwise an error that is not [ErrNoRows]. *)
Theorem GetByID_outcomes (id : Z) (db : sql.DB) :
  snd (repository.DeviceRepositoryImpl.GetByID id db) = db /\
  match fst (repository.DeviceRepositoryImpl.GetByID id db) with
  | (Some device, None) =>
    sql.closed db = false /\ Device.ID device = id /\
    sql.devices db !! id =
      Some (sql.mkRow (Device.Name device) (Some (Device.Description device))
              (Device.DeviceType device) (Device.OwnedBy device)
              (Some (Device.IsOnline device))
              (Some (Device.LastAlarmReason device))
              (Some (Device.LastAlarmTime device))
              (Some (Device.CreatedAt device))
              (Some (Device.UpdatedAt device)))
  | (None, None) => sql.closed db = false /\ sql.devices db !! id = None
  | (None, Some err) =>
    err <> sql.ErrNoRows /\
    (sql.closed db = true \/
     exists r, sql.devices db !! id = Some r /\
       (sql.description r = None \/ sql.is_online r = None \/
        sql.last_alarm_reason r = None \/ sql.last_alarm_time r = None \/
        sql.created_at r = None \/ sql.updated_at r = None))
  | (Some _, Some _) => False
  end.
Proof.
  split; [apply GetByID_reads_only |].
  destruct (fst (repository.DeviceRepositoryImpl.GetByID id db))
    as [[device |] [err |]] eqn:E.
  - unfold repository.DeviceRepositoryImpl.GetByID in E.
    destruct (repository.DeviceRepositoryImpl.Scan _); [done |].
    by case_decide.
  - apply GetByID_found_iff in E as (Hopen & r & Hrow & Hscan).
    apply Scan_row_inv in Hscan as [-> Hid]. done.
  - unfold repository.DeviceRepositoryImpl.GetByID, sql.QueryRow in E.
    destruct (sql.closed db) eqn:Hc.
    { cbn in E. injection E as <-. split; [done | by left]. }
    destruct (sql.devices db !! id) as [r |] eqn:Hrow; [| done].
    destruct (repository.DeviceRepositoryImpl.Scan (inl (id, r)))
      as [d | e] eqn:Hscan; [done |].
    case_decide as Hne; [done |]. injection E as <-.
    split; [done |]. right. exists r. split; [done |].
    destruct r as [n [d |] t o [io |] [lr |] [lt |] [ca |] [ua |]];
      cbn in *; try discriminate; tauto.
  - by apply GetByID_absent_iff in E.
Qed.

(** X11. A write that returns an error has written nothing: [Update],
    [Delete], the repository's [TriggerAlarm] and the service's
    [TriggerAlarm] leave the database as it was whenever they fail. *)
Theorem failed_write_leaves_database
    (id : Z) (patch : DeviceUpdate.t) (reason : string)
    (alarm : AlarmRequest.t) (db : sql.DB) :
  (is_Some (fst (repository.DeviceRepositoryImpl.Update id patch db)) ->
   snd (repository.DeviceRepositoryImpl.Update id patch db) = db) /\
  (is_Some (fst (repository.DeviceRepositoryImpl.Delete id db)) ->
   snd (repository.DeviceRepositoryImpl.Delete id db) = db) /\
  (is_Some (fst (repository.DeviceRepositoryImpl.TriggerAlarm id reason db)) ->
   snd (repository.DeviceRepositoryImpl.TriggerAlarm id reason db) = db) /\
  (is_Some (fst (service.TriggerAlarm id alarm db)) ->
   snd (service.TriggerAlarm id alarm db) = db).
Proof.
  split; [| split; [| split]].
  - destruct (fst (repository.DeviceRepositoryImpl.GetByID id db))
      as [[device |] [err |]] eqn:E.
    + unfold repository.DeviceRepositoryImpl.Update.
      by rewrite GetByID_eq, E.
    + rewrite (Update_found id patch db device E). apply Exec_UPDATE_failed.
    + unfold repository.DeviceRepositoryImpl.Update.
      by rewrite GetByID_eq, E.
    + unfold repository.DeviceRepositoryImpl.Update.
      by rewrite GetByID_eq, E.
  - unfold repository.DeviceRepositoryImpl.Delete, sql.Exec_DELETE.
    destruct (sql.closed db); [done |]. cbn. by intros [? [=]].
  - apply Exec_UPDATE_failed.
  - destruct (fst (repository.DeviceRepositoryImpl.GetByID id db))
      as [[device |] [err |]] eqn:E.
    + rewrite (TriggerAlarm_lookup_failed
                 (repo := repository.DeviceRepositoryImpl_repo)
                 id alarm db (Some device) err db); [done |].
      cbn [repository.GetByID repository.DeviceRepositoryImpl_repo].
      by rewrite GetByID_eq, E.
    + rewrite (service_TriggerAlarm_found id alarm db device E).
      apply Exec_UPDATE_failed.
    + rewrite (TriggerAlarm_lookup_failed
                 (repo := repository.DeviceRepositoryImpl_repo)
                 id alarm db None err db); [done |].
      cbn [repository.GetByID repository.DeviceRepositoryImpl_repo].
      by rewrite GetByID_eq, E.
    + rewrite (TriggerAlarm_absent
                 (repo := repository.DeviceRepositoryImpl_repo)
                 id alarm db db); [done |].
      cbn [repository.GetByID repository.DeviceRepositoryImpl_repo].
      by rewrite GetByID_eq, E.
Qed.

(** X12. The repository's own [TriggerAlarm] makes no existence check: on
    an identifier without a row it reports success on an open handle, and
    changes nothing. The not-found answer comes from the lookup the
    service makes first. *)
Theorem repository_TriggerAlarm_missing_row
    (id : Z) (reason : string) (db : sql.DB) :
  sql.devices db !! id = None ->
  repository.DeviceRepositoryImpl.TriggerAlarm id reason db =
    (if sql.closed db then Some sql.errDBClosed else None, db).
Proof.
  intros Hrow.
  unfold repository.DeviceRepositoryImpl.TriggerAlarm, sql.Exec_UPDATE.
  destruct db as [rows now c]. cbn in *.
  destruct c; [done |]. by rewrite alter_id'.
Qed.

Lemma repository_TriggerAlarm_missing_row_example :
  sql.devices db_A !! 7 = None /\
  repository.DeviceRepositoryImpl.TriggerAlarm 7 "[INFO] test" db_A =
    (if sql.closed db_A then Some sql.errDBClosed else None, db_A).
Proof.
  split; [by vm_compute |].
  apply (repository_TriggerAlarm_missing_row 7 "[INFO] test" db_A).
  by vm_compute.
Defined.

(** X13. On an open handle [Delete] succeeds whether or not the row
    exists, and afterwards the identifier has no row: the lookup yields
    the absence marker, [Update] returns [ErrNoRows], the service's
    [TriggerAlarm] returns its not-found error, and deleting again
    changes nothing. The other identifiers read as before. *)
Theorem Delete_removes_the_row
    (id : Z) (patch : DeviceUpdate.t) (alarm : AlarmRequest.t) (db : sql.DB) :
  sql.closed db = false ->
  exists db' : sql.DB,
    repository.DeviceRepositoryImpl.Delete id db = (None, db') /\
    sql.devices db' = delete id (sql.devices db) /\
    fst (repository.DeviceRepositoryImpl.GetByID id db') = (None, None) /\
    repository.DeviceRepositoryImpl.Update id patch db' =
      (Some sql.ErrNoRows, db') /\
    service.TriggerAlarm id alarm db' =
      (Some (errorString ("device not found with ID: " +:+ itoa id)), db') /\
    repository.DeviceRepositoryImpl.Delete id db' = (None, db') /\
    forall id' : Z,
      id' <> id ->
      fst (repository.DeviceRepositoryImpl.GetByID id' db') =
      fst (repository.DeviceRepositoryImpl.GetByID id' db).
Proof.
  intros Hopen.
  unfold repository.DeviceRepositoryImpl.Delete at 1. unfold sql.Exec_DELETE.
  rewrite Hopen. eexists. split; [reflexivity |].
  set (db' := sql.mkDB _ _ _).
  assert (Habs :
    fst (repository.DeviceRepositoryImpl.GetByID id db') = (None, None)).
  { apply GetByID_absent_iff. split; [done |]. apply lookup_delete_eq. }
  split; [done |]. split; [done |]. split; [| split; [| split]].
  - unfold repository.DeviceRepositoryImpl.Update.
    by rewrite GetByID_eq, Habs.
  - apply (TriggerAlarm_absent (repo := repository.DeviceRepositoryImpl_repo)).
    cbn [repository.GetByID repository.DeviceRepositoryImpl_repo].
    by rewrite GetByID_eq, Habs.
  - unfold repository.DeviceRepositoryImpl.Delete, sql.Exec_DELETE.
    subst db'. cbn [sql.closed sql.devices sql.CURRENT_TIMESTAMP].
    by rewrite delete_delete_eq.
  - intros id' Hne.
    unfold repository.DeviceRepositoryImpl.GetByID, sql.QueryRow.
    subst db'. cbn [sql.closed sql.devices]. rewrite Hopen.
    rewrite lookup_delete_ne; [| by apply not_eq_sym].
    destruct (repository.DeviceRepositoryImpl.Scan _); [done |].
    by case_decide.
Qed.

Lemma Delete_removes_the_row_example :
  sql.closed db_A = false /\
  exists db' : sql.DB,
    repository.DeviceRepositoryImpl.Delete 1 db_A = (None, db') /\
    sql.devices db' = delete 1 (sql.devices db_A) /\
    fst (repository.DeviceRepositoryImpl.GetByID 1 db') = (None, None) /\
    repository.DeviceRepositoryImpl.Update 1 patch_online db' =
      (Some sql.ErrNoRows, db') /\
    service.TriggerAlarm 1 smoke_alarm db' =
      (Some (errorString ("device not found with ID: " +:+ itoa 1)), db') /\
    repository.DeviceRepositoryImpl.Delete 1 db' = (None, db') /\
    forall id' : Z,
      id' <> 1 ->
      fst (repository.DeviceRepositoryImpl.GetByID id' db') =
      fst (repository.DeviceRepositoryImpl.GetByID id' db_A).
Proof.
  split; [reflexivity |].
  apply (Delete_removes_the_row 1 patch_online smoke_alarm db_A). reflexivity.
Defined.

(** The length of a concatenation. *)
Lemma len_append (s1 s2 : string) : len (s1 +:+ s2) = len s1 + len s2.
Proof.
  unfold len. induction s1 as [| c s1 IH]; [done |].
  change (String c s1 +:+ s2) with (String c (s1 +:+ s2)).
  cbn [String.length]. lia.
Qed.

(** X14. The reason a valid request stores is [formatted]: 3 bytes and
    the level longer than the reason sent, at most 211 bytes. A reason of
    more than 193 bytes is therefore stored as a text that
    [ValidateDeviceUpdate] refuses as [last_alarm_reason], whose limit is
    200. *)
Theorem stored_alarm_reason_length
    (id : Z) (alarm : AlarmRequest.t) (db : sql.DB) (device : Device.t) :
  fst (repository.DeviceRepositoryImpl.GetByID id db) = (Some device, None) ->
  fst (ValidateAlarmRequest alarm) = true ->
  exists (db' : sql.DB) (stored : Device.t),
    service.TriggerAlarm id alarm db = (None, db') /\
    fst (repository.DeviceRepositoryImpl.GetByID id db') = (Some stored, None) /\
    len (Device.LastAlarmReason stored) =
      len (AlarmRequest.Reason alarm) + len (AlarmRequest.Level alarm) + 3 /\
    len (Device.LastAlarmReason stored) <= 211 /\
    (193 < len (AlarmRequest.Reason alarm) ->
     fst (ValidateDeviceUpdate
            (DeviceUpdate.mk None None None None None
               (Some (Device.LastAlarmReason stored)))) = false).
Proof.
  intros Hget Hok.
  pose proof Hget as Hfound.
  apply GetByID_found_iff in Hfound as (Hopen & r & Hrow & Hscan).
  apply Scan_row_inv in Hscan as [-> Hid].
  rewrite (service_TriggerAlarm_found id alarm db device Hget).
  rewrite (Exec_UPDATE_open _ _ _ Hopen).
  eexists. eexists. split; [reflexivity |]. split.
  { unfold repository.DeviceRepositoryImpl.GetByID, sql.QueryRow.
    cbn [sql.closed sql.devices]. rewrite lookup_alter_eq, Hrow. cbn.
    reflexivity. }
  cbn [Device.LastAlarmReason].
  assert (Hlen : len (formatted alarm) =
            len (AlarmRequest.Reason alarm) + len (AlarmRequest.Level alarm) + 3).
  { unfold formatted. rewrite !len_append.
    change (len "[") with 1. change (len "] ") with 2. lia. }
  unfold ValidateAlarmRequest in Hok. cbn [fst] in Hok.
  apply len_zero_iff_empty in Hok.
  apply flagged_empty_iff in Hok as [Hlevel Hreason].
  unfold MinAlarmReasonLength, MaxLastAlarmReasonLength in Hreason.
  destruct (Z.ltb_spec (len (AlarmRequest.Reason alarm)) 1) as [| Hmin];
    [by apply insert_non_empty in Hreason |].
  destruct (Z.gtb_spec (len (AlarmRequest.Reason alarm)) 200) as [| Hmax];
    [by apply insert_non_empty in Hreason |].
  assert (Hlv : 4 <= len (AlarmRequest.Level alarm) <= 8).
  { destruct (String.eqb_spec (AlarmRequest.Level alarm) "INFO") as [-> |];
      [by vm_compute |].
    destruct (String.eqb_spec (AlarmRequest.Level alarm) "WARNING") as [-> |];
      [by vm_compute |].
    destruct (String.eqb_spec (AlarmRequest.Level alarm) "CRITICAL") as [-> |];
      [by vm_compute | done]. }
  split; [done |]. split; [lia |].
  intros Hlong. unfold ValidateDeviceUpdate. cbn [fst].
  cbn [DeviceUpdate.Name DeviceUpdate.OwnedBy DeviceUpdate.Description
       DeviceUpdate.LastAlarmReason DeviceUpdate.DeviceType present_and].
  unfold MaxLastAlarmReasonLength.
  destruct (Z.gtb_spec (len (formatted alarm)) 200); [done | lia].
Qed.

Lemma stored_alarm_reason_length_example :
  fst (repository.DeviceRepositoryImpl.GetByID 1 db_A) = (Some device_A, None) /\
  fst (ValidateAlarmRequest long_alarm) = true /\
  exists (db' : sql.DB) (stored : Device.t),
    service.TriggerAlarm 1 long_alarm db_A = (None, db') /\
    fst (repository.DeviceRepositoryImpl.GetByID 1 db') = (Some stored, None) /\
    len (Device.LastAlarmReason stored) =
      len (AlarmRequest.Reason long_alarm) +
      len (AlarmRequest.Level long_alarm) + 3 /\
    len (Device.LastAlarmReason stored) <= 211 /\
    (193 < len (AlarmRequest.Reason long_alarm) ->
     fst (ValidateDeviceUpdate
            (DeviceUpdate.mk None None None None None
               (Some (Device.LastAlarmReason stored)))) = false).
Proof.
  split; [by vm_compute |]. split; [by vm_compute |].
  apply (stored_alarm_reason_length 1 long_alarm db_A device_A);
    by vm_compute.
Defined.

(** ** Inserting a device *)

Section Insertion.
Implicit Types (st : store.Store) (rows : gmap Z sql.Row).



End Insertion.









(** ** The handlers *)

Section AnyService.
Context {S : Type} {deviceService : handlers.DeviceServiceInterface S}.

(** X19. A path parameter that is no decimal 64-bit integer is answered
    with 400 and [invalid device ID] by every handler that takes one,
    before the body is looked at and without calling the service. *)
Theorem unparsable_id_is_rejected
    (idStr : string) (patch : DeviceUpdate.t + error)
    (alarm : AlarmRequest.t + error) (s : S) :
  strconv.ParseInt idStr = None ->
  let rejected :=
    (handlers.mkResponse 400 (handlers.H_error "invalid device ID"), s) in
  handlers.getDeviceByID idStr s = rejected /\
  handlers.updateDevice idStr patch s = rejected /\
  handlers.deleteDevice idStr s = rejected /\
  handlers.triggerDeviceAlarm idStr alarm s = rejected.
Proof.
  intros Hparse. cbv zeta.
  unfold handlers.getDeviceByID, handlers.updateDevice, handlers.deleteDevice,
    handlers.triggerDeviceAlarm.
  by rewrite Hparse.
Qed.



End AnyService.

Section RealService.
Implicit Types (st : store.Store) (id : Z).

(** The lookup through the store. *)
Lemma Store_GetByID id st :
  repository.GetByID id st =
  (fst (repository.DeviceRepositoryImpl.GetByID id (store.db st)), st).
Proof.
  cbn [repository.GetByID store.Store_repo]. unfold store.lift.
  rewrite GetByID_eq. by destruct st.
Qed.

(** The errors of a lookup: a closed handle or a failed conversion. *)
Lemma GetByID_error_cases id (db : sql.DB) (device : option Device.t)
    (err : error) :
  fst (repository.DeviceRepositoryImpl.GetByID id db) = (device, Some err) ->
  err = sql.errDBClosed \/ exists index column, err = ErrScan index column.
Proof.
  unfold repository.DeviceRepositoryImpl.GetByID, sql.QueryRow.
  destruct (sql.closed db).
  { cbn. intros [= _ <-]. by left. }
  destruct (sql.devices db !! id) as [r |]; [| done].
  destruct r as [n [d |] t o [io |] [lr |] [lt |] [ca |] [ua |]];
    cbn; intros [= _ <-]; right; eauto.
Qed.

(** The text of such an error is not the text of the not-found error. *)
Lemma lookup_error_is_not_not_found id (err : error) :
  err = sql.errDBClosed \/ (exists index column, err = ErrScan index column) ->
  String.eqb (errors.Error err) ("device not found with ID: " +:+ itoa id)
  = false.
Proof. intros [-> | (index & column & ->)]; by lazy. Qed.

End RealService.

Lemma unparsable_id_is_rejected_example :
  strconv.ParseInt "invalid" = None /\
  let rejected :=
    (handlers.mkResponse 400 (handlers.H_error "invalid device ID"), store_A) in
  handlers.getDeviceByID "invalid" store_A = rejected /\
  handlers.updateDevice "invalid" (inl patch_online) store_A = rejected /\
  handlers.deleteDevice "invalid" store_A = rejected /\
  handlers.triggerDeviceAlarm "invalid" (inl smoke_alarm) store_A = rejected.
Proof.
  split; [reflexivity |].
  apply (unparsable_id_is_rejected "invalid" (inl patch_online)
           (inl smoke_alarm) store_A).
  reflexivity.
Defined.



(** X22. [getDeviceByID] answers 200 with the device when the lookup
    returns one, 404 with [device not found] when it returns the absence
    marker, and 500 with the text of the error otherwise. It never
    changes the store. *)
Theorem getDeviceByID_answers (idStr : string) (id : Z) (st : store.Store) :
  strconv.ParseInt idStr = Some id ->
  handlers.getDeviceByID idStr st =
    (match fst (repository.DeviceRepositoryImpl.GetByID id (store.db st)) with
     | (_, Some err) =>
       handlers.mkResponse 500 (handlers.H_error (errors.Error err))
     | (None, None) =>
       handlers.mkResponse 404 (handlers.H_error "device not found")
     | (Some device, None) =>
       handlers.mkResponse 200 (handlers.JSON_Device device)
     end, st).
Proof.
  intros Hparse. unfold handlers.getDeviceByID. rewrite Hparse.
  cbn [handlers.GetDeviceByID app.DeviceService_svc].
  unfold service.GetDeviceByID. rewrite Store_GetByID.
  by destruct (fst (repository.DeviceRepositoryImpl.GetByID id (store.db st)))
    as [[device |] [err |]].
Qed.

Lemma getDeviceByID_answers_example :
  strconv.ParseInt "1" = Some 1 /\
  handlers.getDeviceByID "1" store_A =
    (match fst (repository.DeviceRepositoryImpl.GetByID 1 (store.db store_A))
     with
     | (_, Some err) =>
       handlers.mkResponse 500 (handlers.H_error (errors.Error err))
     | (None, None) =>
       handlers.mkResponse 404 (handlers.H_error "device not found")
     | (Some device, None) =>
       handlers.mkResponse 200 (handlers.JSON_Device device)
     end, store_A).
Proof.
  split; [reflexivity |].
  apply (getDeviceByID_answers "1" 1 store_A). reflexivity.
Defined.

(** X23. [updateDevice] does not validate the patch. Whatever the patch
    holds, when the lookup returns a device the answer is 204 and the
    merged fields are stored: a name [ValidateDeviceUpdate] refuses is
    written like any other. *)
Theorem updateDevice_stores_unvalidated_patch
    (idStr : string) (id : Z) (patch : DeviceUpdate.t) (st : store.Store)
    (baseline : Device.t) :
  strconv.ParseInt idStr = Some id ->
  fst (repository.DeviceRepositoryImpl.GetByID id (store.db st)) =
    (Some baseline, None) ->
  exists st' : store.Store,
    handlers.updateDevice idStr (inl patch) st =
      (handlers.mkResponse 204 handlers.NoBody, st') /\
    fst (repository.GetByID id st') =
      (Some (Device.mk (Device.ID baseline)
               (default (Device.OwnedBy baseline) (DeviceUpdate.OwnedBy patch))
               (default (Device.DeviceType baseline)
                  (DeviceUpdate.DeviceType patch))
               (default (Device.Name baseline) (DeviceUpdate.Name patch))
               (default (Device.Description baseline)
                  (DeviceUpdate.Description patch))
               (default (Device.IsOnline baseline) (DeviceUpdate.IsOnline patch))
               (Device.LastAlarmTime baseline)
               (default (Device.LastAlarmReason baseline)
                  (DeviceUpdate.LastAlarmReason patch))
               (Device.CreatedAt baseline)
               (sql.CURRENT_TIMESTAMP (store.db st))),
       None).
Proof.
  intros Hparse Hget. unfold handlers.updateDevice. rewrite Hparse.
  cbn [handlers.UpdateDevice app.DeviceService_svc].
  unfold service.UpdateDevice.
  cbn [repository.Update store.Store_repo]. unfold store.lift.
  rewrite (Update_found id patch (store.db st) baseline Hget).
  pose proof Hget as Hfound.
  apply GetByID_found_iff in Hfound as (Hopen & r & Hrow & Hscan).
  apply Scan_row_inv in Hscan as [-> Hid].
  rewrite (Exec_UPDATE_open _ _ _ Hopen).
  eexists. split; [reflexivity |].
  rewrite Store_GetByID. cbn [fst store.db].
  unfold repository.DeviceRepositoryImpl.GetByID, sql.QueryRow.
  cbn [sql.closed sql.devices]. rewrite lookup_alter_eq, Hrow. cbn.
  by rewrite Hid.
Qed.

Lemma updateDevice_stores_unvalidated_patch_example :
  fst (ValidateDeviceUpdate (only_name "Invalid Name!")) = false /\
  strconv.ParseInt "1" = Some 1 /\
  fst (repository.DeviceRepositoryImpl.GetByID 1 (store.db store_A)) =
    (Some device_A, None) /\
  exists st' : store.Store,
    handlers.updateDevice "1" (inl (only_name "Invalid Name!")) store_A =
      (handlers.mkResponse 204 handlers.NoBody, st') /\
    fst (repository.GetByID 1 st') =
      (Some (Device.mk 1 "o1" "CAMERA" "Invalid Name!" "" false 0 "" 900 1000),
       None).
Proof.
  split; [by vm_compute |]. split; [reflexivity |]. split; [by vm_compute |].
  apply (updateDevice_stores_unvalidated_patch "1" 1
           (only_name "Invalid Name!") store_A device_A);
    by vm_compute.
Defined.

(** X24. [updateDevice] on an identifier whose lookup yields the absence
    marker answers 500, not 404, with the text of [sql.ErrNoRows], and
    changes nothing. *)
Theorem updateDevice_missing_device
    (idStr : string) (id : Z) (patch : DeviceUpdate.t) (st : store.Store) :
  strconv.ParseInt idStr = Some id ->
  fst (repository.DeviceRepositoryImpl.GetByID id (store.db st)) =
    (None, None) ->
  handlers.updateDevice idStr (inl patch) st =
    (handlers.mkResponse 500 (handlers.H_error "sql: no rows in result set"),
     st).
Proof.
  intros Hparse Hget. unfold handlers.updateDevice. rewrite Hparse.
  cbn [handlers.UpdateDevice app.DeviceService_svc].
  unfold service.UpdateDevice.
  cbn [repository.Update store.Store_repo]. unfold store.lift.
  unfold repository.DeviceRepositoryImpl.Update.
  rewrite GetByID_eq, Hget. by destruct st.
Qed.

Lemma updateDevice_missing_device_example :
  strconv.ParseInt "7" = Some 7 /\
  fst (repository.DeviceRepositoryImpl.GetByID 7 (store.db store_A)) =
    (None, None) /\
  handlers.updateDevice "7" (inl patch_online) store_A =
    (handlers.mkResponse 500 (handlers.H_error "sql: no rows in result set"),
     store_A).
Proof.
  split; [reflexivity |]. split; [by vm_compute |].
  apply (updateDevice_missing_device "7" 7 patch_online store_A);
    by vm_compute.
Defined.

(** X25. On an open handle [deleteDevice] answers 204 whether or not the
    device exists; afterwards the identifier has no row and
    [getDeviceByID] answers 404. *)
Theorem deleteDevice_answers_204 (idStr : string) (id : Z) (st : store.Store) :
  strconv.ParseInt idStr = Some id ->
  sql.closed (store.db st) = false ->
  exists st' : store.Store,
    handlers.deleteDevice idStr st =
      (handlers.mkResponse 204 handlers.NoBody, st') /\
    sql.devices (store.db st') = delete id (sql.devices (store.db st)) /\
    store.sqlite_sequence st' = store.sqlite_sequence st /\
    handlers.getDeviceByID idStr st' =
      (handlers.mkResponse 404 (handlers.H_error "device not found"), st').
Proof.
  intros Hparse Hopen. unfold handlers.deleteDevice, handlers.getDeviceByID.
  rewrite Hparse.
  cbn [handlers.DeleteDevice handlers.GetDeviceByID app.DeviceService_svc].
  unfold service.DeleteDevice, service.GetDeviceByID.
  cbn [repository.Delete store.Store_repo]. unfold store.lift.
  unfold repository.DeviceRepositoryImpl.Delete, sql.Exec_DELETE.
  rewrite Hopen. eexists. split; [reflexivity |].
  split; [done |]. split; [done |].
  rewrite Store_GetByID.
  set (st' := store.mkStore _ _).
  assert (Habs : fst (repository.DeviceRepositoryImpl.GetByID id (store.db st'))
                 = (None, None)).
  { apply GetByID_absent_iff. split; [done |]. apply lookup_delete_eq. }
  by rewrite Habs.
Qed.

Lemma deleteDevice_answers_204_example :
  strconv.ParseInt "7" = Some 7 /\
  sql.closed (store.db store_A) = false /\
  exists st' : store.Store,
    handlers.deleteDevice "7" store_A =
      (handlers.mkResponse 204 handlers.NoBody, st') /\
    sql.devices (store.db st') = delete 7 (sql.devices (store.db store_A)) /\
    store.sqlite_sequence st' = store.sqlite_sequence store_A /\
    handlers.getDeviceByID "7" st' =
      (handlers.mkResponse 404 (handlers.H_error "device not found"), st').
Proof.
  split; [reflexivity |]. split; [reflexivity |].
  apply (deleteDevice_answers_204 "7" 7 store_A); reflexivity.
Defined.

(** X26. For a valid request [triggerDeviceAlarm] answers by the outcome
    of the lookup: 500 with the text of the error when the lookup fails,
    404 with [device not found with ID: <id>] when there is no device,
    both without a write; and 204 when there is one, the formatted reason
    then being stored. The comparison of error texts by which the handler
    recognises the missing device never takes a lookup error for it. *)
Theorem triggerDeviceAlarm_answers
    (idStr : string) (id : Z) (alarm : AlarmRequest.t) (st : store.Store) :
  strconv.ParseInt idStr = Some id ->
  fst (ValidateAlarmRequest alarm) = true ->
  match fst (repository.DeviceRepositoryImpl.GetByID id (store.db st)) with
  | (_, Some err) =>
    handlers.triggerDeviceAlarm idStr (inl alarm) st =
      (handlers.mkResponse 500 (handlers.H_error (errors.Error err)), st)
  | (None, None) =>
    handlers.triggerDeviceAlarm idStr (inl alarm) st =
      (handlers.mkResponse 404
         (handlers.H_error ("device not found with ID: " +:+ itoa id)), st)
  | (Some device, None) =>
    exists st' : store.Store,
      handlers.triggerDeviceAlarm idStr (inl alarm) st =
        (handlers.mkResponse 204 handlers.NoBody, st') /\
      sql.last_alarm_reason <$> sql.devices (store.db st') !! id =
        Some (Some ("[" +:+ AlarmRequest.Level alarm +:+ "] " +:+
                    AlarmRequest.Reason alarm))
  end.
Proof.
  intros Hparse Hok.
  assert (Hhandler : handlers.triggerDeviceAlarm idStr (inl alarm) st =
    let '(err, s) := service.TriggerAlarm id alarm st in
    match err with
    | Some err =>
      if String.eqb (errors.Error err)
           ("device not found with ID: " +:+ itoa id)
      then (handlers.mkResponse 404 (handlers.H_error (errors.Error err)), s)
      else (handlers.mkResponse 500 (handlers.H_error (errors.Error err)), s)
    | None => (handlers.mkResponse 204 handlers.NoBody, s)
    end).
  { unfold handlers.triggerDeviceAlarm. rewrite Hparse.
    destruct (ValidateAlarmRequest alarm) as [ok errs]. cbn in Hok.
    by subst ok. }
  rewrite Hhandler. clear Hhandler.
  pose proof (Store_GetByID id st) as Hlookup.
  destruct (fst (repository.DeviceRepositoryImpl.GetByID id (store.db st)))
    as [[device |] [err |]] eqn:E.
  - rewrite (TriggerAlarm_lookup_failed id alarm st _ _ _ Hlookup).
    by rewrite (lookup_error_is_not_not_found id err
                  (GetByID_error_cases _ _ _ _ E)).
  - rewrite (TriggerAlarm_found id alarm st _ _ Hlookup).
    apply GetByID_found_iff in E as (Hopen & r & Hrow & Hscan).
    cbn [repository.TriggerAlarm store.Store_repo]. unfold store.lift.
    unfold repository.DeviceRepositoryImpl.TriggerAlarm.
    rewrite (Exec_UPDATE_open _ _ _ Hopen).
    eexists. split; [reflexivity |].
    cbn [store.db sql.devices]. by rewrite lookup_alter_eq, Hrow.
  - rewrite (TriggerAlarm_lookup_failed id alarm st _ _ _ Hlookup).
    by rewrite (lookup_error_is_not_not_found id err
                  (GetByID_error_cases _ _ _ _ E)).
  - rewrite (TriggerAlarm_absent id alarm st _ Hlookup).
    unfold not_found. cbn [errors.Error]. by rewrite String.eqb_refl.
Qed.

Lemma triggerDeviceAlarm_answers_example :
  strconv.ParseInt "7" = Some 7 /\
  fst (ValidateAlarmRequest smoke_alarm) = true /\
  match fst (repository.DeviceRepositoryImpl.GetByID 7 (store.db store_A)) with
  | (_, Some err) =>
    handlers.triggerDeviceAlarm "7" (inl smoke_alarm) store_A =
      (handlers.mkResponse 500 (handlers.H_error (errors.Error err)), store_A)
  | (None, None) =>
    handlers.triggerDeviceAlarm "7" (inl smoke_alarm) store_A =
      (handlers.mkResponse 404
         (handlers.H_error ("device not found with ID: " +:+ itoa 7)), store_A)
  | (Some device, None) =>
    exists st' : store.Store,
      handlers.triggerDeviceAlarm "7" (inl smoke_alarm) store_A =
        (handlers.mkResponse 204 handlers.NoBody, st') /\
      sql.last_alarm_reason <$> sql.devices (store.db st') !! 7 =
        Some (Some ("[" +:+ AlarmRequest.Level smoke_alarm +:+ "] " +:+
                    AlarmRequest.Reason smoke_alarm))
  end.
Proof.
  split; [reflexivity |]. split; [by vm_compute |].
  apply (triggerDeviceAlarm_answers "7" 7 smoke_alarm store_A);
    by vm_compute.
Defined.


